(** * daytime: a time-of-day value type, seconds since midnight in [0, 86400]

    Shallow embedding of [daytime.go] and verification of its specification.

    Go's [int] is taken at its 64-bit width (two's complement, arithmetic
    wraps silently); [Daytime] is a [uint32].  Both are carried as [Z]
    together with a range predicate, and every arithmetic operator of the
    source is written with its wrap-around. *)

From Stdlib Require Import ZArith List Bool Lia.
From Stdlib Require Import Strings.String Strings.Ascii.
Import ListNotations.
Open Scope Z_scope.

(** ** Machine integers *)

Module GoInt.

Definition int := Z.

Definition min_int : Z := - 2 ^ 63.
Definition max_int : Z := 2 ^ 63 - 1.

Definition is_int (x : Z) : Prop := min_int <= x <= max_int.

(** Two's-complement reduction of a mathematical integer to 64 bits. *)
Definition wrap (x : Z) : int := (x + 2 ^ 63) mod 2 ^ 64 - 2 ^ 63.

Definition add (x y : int) : int := wrap (x + y).
Definition sub (x y : int) : int := wrap (x - y).
Definition mul (x y : int) : int := wrap (x * y).
Definition neg (x : int) : int := wrap (- x).

(** Go's [/] and [%] truncate toward zero; the remainder takes the sign of
    the dividend. *)
Definition quot (x y : int) : int := wrap (Z.quot x y).
Definition rem (x y : int) : int := Z.rem x y.

Definition uint32 := Z.
Definition is_uint32 (x : Z) : Prop := 0 <= x < 2 ^ 32.

(** Conversion [uint32(x)] of an [int]. *)
Definition to_uint32 (x : int) : uint32 := x mod 2 ^ 32.

(** Arithmetic on [uint32] wraps modulo 2^32. *)
Definition add32 (x y : uint32) : uint32 := (x + y) mod 2 ^ 32.
Definition mul32 (x y : uint32) : uint32 := (x * y) mod 2 ^ 32.

End GoInt.

(** ** The Go library functions the package calls

    [strconv.Atoi], [fmt.Sscanf] and [fmt.Sprintf] belong to Go's standard
    library.  They are modelled here on byte strings, for the verbs and the
    bases the package uses, after the library's documented behaviour. *)

Definition code (c : ascii) : Z := Z.of_N (N_of_ascii c).

Definition is_decimal (c : ascii) : bool := (48 <=? code c) && (code c <=? 57).

Module strconv.

Import GoInt.

(** Value of a run of decimal digits, most significant first; [None] as soon
    as a byte is not a decimal digit. *)
Fixpoint digits_value (s : string) (acc : Z) : option Z :=
  match s with
  | EmptyString => Some acc
  | String c rest =>
      if is_decimal c then digits_value rest (10 * acc + (code c - 48))
      else None
  end.

(** [ParseUint(s, 10, 64)] without the range check: a syntax error on the
    empty string and on any byte that is not a decimal digit. *)
Definition parse_digits (s : string) : option Z :=
  match s with
  | EmptyString => None
  | _ => digits_value s 0
  end.

(** [ParseInt(s, 10, 64)]: an optional sign, at least one decimal digit and
    nothing else; [None] for a syntax error and for a value that does not fit
    64 bits. *)
Definition ParseInt (s : string) : option int :=
  match s with
  | EmptyString => None
  | String c rest =>
      let '(neg, body) :=
        if code c =? 43 then (false, rest)
        else if code c =? 45 then (true, rest)
        else (false, s) in
      match parse_digits body with
      | None => None
      | Some un =>
          if negb neg && (2 ^ 63 <=? un) then None
          else if neg && (2 ^ 63 <? un) then None
          else Some (if neg then - un else un)
      end
  end.

(** [Atoi(s)] is [ParseInt(s, 10, 0)] converted to [int]; its fast path for
    short strings accepts the same syntax. *)
Definition Atoi (s : string) : option int := ParseInt s.

End strconv.

Module fmt.

Import GoInt.

Inductive scan_error : Type :=
| UnexpectedNewline
| UnexpectedEOF
| ExpectedInteger
| BadNumber
| InputMismatch.

(** The scanner reads from the remaining input and either yields a value
    with the input left, or stops the whole scan with an error. *)
Definition Scan (A : Type) : Type := string -> scan_error + (A * string).

Definition ret {A} (a : A) : Scan A := fun inp => inr (a, inp).

Definition bind {A B} (m : Scan A) (k : A -> Scan B) : Scan B :=
  fun inp =>
    match m inp with
    | inl e => inl e
    | inr (a, rest) => k a rest
    end.

Definition raise {A} (e : scan_error) : Scan A := fun _ => inl e.

Notation "x <- m ;; k" := (bind m (fun x => k))
  (at level 61, m at next level, right associativity).
Notation "m ;;; k" := (bind m (fun _ => k))
  (at level 61, right associativity).

(** One-byte space runes of the scanner's table: U+0009..U+000D and U+0020. *)
Definition space1 (a : Z) : bool := ((9 <=? a) && (a <=? 13)) || (a =? 32).

(** Two-byte encodings: U+0085 and U+00A0. *)
Definition space2 (a b : Z) : bool :=
  (a =? 194) && ((b =? 133) || (b =? 160)).

(** Three-byte encodings: U+1680, U+2000..U+200A, U+2028, U+2029, U+202F,
    U+205F and U+3000. *)
Definition space3 (a b c : Z) : bool :=
  ((a =? 225) && (b =? 154) && (c =? 128))
  || ((a =? 226) && (b =? 128)
      && (((128 <=? c) && (c <=? 138)) || (c =? 168) || (c =? 169)
          || (c =? 175)))
  || ((a =? 226) && (b =? 129) && (c =? 159))
  || ((a =? 227) && (b =? 128) && (c =? 128)).

(** [SkipSpace] of a scan that does not treat newlines as space ([Sscanf]):
    space runes are dropped, a newline stops the scan with an error, and the
    first rune that is not a space is left unread. *)
Fixpoint SkipSpace (inp : string) : scan_error + (unit * string) :=
  match inp with
  | EmptyString => inr (tt, inp)
  | String c1 r1 =>
      if code c1 =? 10 then inl UnexpectedNewline
      else if space1 (code c1) then SkipSpace r1
      else
        match r1 with
        | EmptyString => inr (tt, inp)
        | String c2 r2 =>
            if space2 (code c1) (code c2) then SkipSpace r2
            else
              match r2 with
              | EmptyString => inr (tt, inp)
              | String c3 r3 =>
                  if space3 (code c1) (code c2) (code c3) then SkipSpace r3
                  else inr (tt, inp)
              end
        end
  end.

(** [notEOF]: end of input is an error, anything else is left unread. *)
Definition notEOF : Scan unit :=
  fun inp =>
    match inp with
    | EmptyString => inl UnexpectedEOF
    | _ => inr (tt, inp)
    end.

(** [accept(ok)]: consume the next rune when it is one of [ok]; the bytes
    consumed are what goes to the token buffer. *)
Definition accept (ok : ascii -> bool) : Scan string :=
  fun inp =>
    match inp with
    | String c rest =>
        if ok c then inr (String c EmptyString, rest) else inr (EmptyString, inp)
    | EmptyString => inr (EmptyString, inp)
    end.

Definition is_sign (c : ascii) : bool := (code c =? 43) || (code c =? 45).

(** The digit set of verb [%d] is ["0123456789_"]: the underscore is taken
    into the token and refused afterwards by [ParseInt] in base 10. *)
Definition is_digit_d (c : ascii) : bool := is_decimal c || (code c =? 95).

(** The loop [for s.accept(digits) {}]. *)
Fixpoint accept_all (ok : ascii -> bool) (inp : string) : string * string :=
  match inp with
  | String c rest =>
      if ok c then
        let '(tok, unread) := accept_all ok rest in (String c tok, unread)
      else (EmptyString, inp)
  | EmptyString => (EmptyString, inp)
  end.

Definition scanNumber : Scan string :=
  notEOF ;;;
  first <- accept is_digit_d ;;
  match first with
  | EmptyString => raise ExpectedInteger
  | _ => fun inp => let '(more, unread) := accept_all is_digit_d inp in
                    inr (first ++ more, unread)
  end%string.

(** [scanInt('d', 64)]. *)
Definition scanInt : Scan int :=
  SkipSpace ;;;
  notEOF ;;;
  sign <- accept is_sign ;;
  digits <- scanNumber ;;
  match strconv.ParseInt (sign ++ digits) with
  | None => raise BadNumber
  | Some i => ret i
  end.

(** The format string split into its directives: a verb [%d] or a literal
    byte that is neither a space nor a percent sign. *)
Inductive directive : Type :=
| Verb_d
| Lit (c : ascii).

(** [doScanf]: the values stored so far (their number is the count the scan
    reports) and the error that stopped it, if any.  Before a verb the
    leading spaces of the input are discarded; a literal must be the next
    rune of the input; input left after the last directive is not looked
    at. *)
Fixpoint doScanf (format : list directive) (stored : list int) (inp : string)
  : list int * option scan_error :=
  match format with
  | [] => (stored, None)
  | Verb_d :: format' =>
      match (SkipSpace ;;; scanInt) inp with
      | inl e => (stored, Some e)
      | inr (v, rest) => doScanf format' (stored ++ [v]) rest
      end
  | Lit c :: format' =>
      match inp with
      | EmptyString => (stored, Some UnexpectedEOF)
      | String c' rest =>
          if Ascii.eqb c c' then doScanf format' stored rest
          else (stored, Some InputMismatch)
      end
  end.

Definition Sscanf (str : string) (format : list directive)
  : list int * option scan_error :=
  doScanf format [] str.

(** Decimal digits of a non-negative integer, most significant first. *)
Fixpoint utoa (fuel : nat) (n : Z) (acc : string) : string :=
  match fuel with
  | O => acc
  | S fuel' =>
      let acc' := String (ascii_of_N (Z.to_N (48 + n mod 10))) acc in
      if n <? 10 then acc' else utoa fuel' (n / 10) acc'
  end.

(** [Sprintf("%02d", n)]: at least two characters, zeros after the sign. *)
Definition Sprintf_02d (n : int) : string :=
  if n <? 0 then String "-" (utoa 20 (- n) EmptyString)
  else if n <? 10 then String "0" (utoa 20 n EmptyString)
  else utoa 20 n EmptyString.

End fmt.

(** ** The package *)

Module daytime.

Import GoInt.

Definition Daytime := uint32.

Definition secondsInDay : int := 86400.
Definition hoursInDay : int := 24.

Definition StartOfDay : Daytime := to_uint32 0.
Definition EndOfDay : Daytime := to_uint32 secondsInDay.

(** [int(d)]: every [uint32] fits a 64-bit [int]. *)
Definition int_of (d : Daytime) : int := d.

(** [Daytime(x)] for an [int] [x]. *)
Definition of_int (x : int) : Daytime := to_uint32 x.

(** *** Errors *)

(** The package's error values made with [errors.New]. *)
Inductive sentinel : Type :=
| ErrDivisionByZero
| ErrInvalidTimeComponent
| ErrInvalidFormat
| ErrValueOutOfRange
| ErrInvalidModulus
| ErrEndOfDayExceeded.

Definition sentinel_eqb (a b : sentinel) : bool :=
  match a, b with
  | ErrDivisionByZero, ErrDivisionByZero
  | ErrInvalidTimeComponent, ErrInvalidTimeComponent
  | ErrInvalidFormat, ErrInvalidFormat
  | ErrValueOutOfRange, ErrValueOutOfRange
  | ErrInvalidModulus, ErrInvalidModulus
  | ErrEndOfDayExceeded, ErrEndOfDayExceeded => true
  | _, _ => false
  end.

(** The values stored in [Error.value]: the source passes a string or an
    [int]. *)
Inductive any : Type :=
| AnyString (s : string)
| AnyInt (n : int).

(** A non-nil [error]: one of the sentinels, or an [*Error] carrying the
    operation, the offending value and the wrapped error. *)
Inductive error : Type :=
| Sentinel (e : sentinel)
| Error (op : string) (value : any) (err : error).

Definition Unwrap (e : error) : option error :=
  match e with
  | Sentinel _ => None
  | Error _ _ err => Some err
  end.

Definition Operation (e : error) : string :=
  match e with
  | Sentinel _ => EmptyString
  | Error op _ _ => op
  end.

(** [errors.As(err, &existingErr)] for a target of type [*Error]: the first
    element of the chain already answers. *)
Definition As_Error (e : error) : bool :=
  match e with
  | Sentinel _ => false
  | Error _ _ _ => true
  end.

(** [errors.Is(err, target)] for a sentinel target: walk the [Unwrap]
    chain. *)
Fixpoint Is (err : error) (target : sentinel) : bool :=
  match err with
  | Sentinel e => sentinel_eqb e target
  | Error _ _ inner => Is inner target
  end.

(** The sentinel at the end of the [Unwrap] chain. *)
Fixpoint root_cause (err : error) : sentinel :=
  match err with
  | Sentinel e => e
  | Error _ _ inner => root_cause inner
  end.

Definition errorf (op : string) (value : any) (err : option error)
  : option error :=
  match err with
  | None => None
  | Some e => if As_Error e then Some e else Some (Error op value e)
  end.

(** *** Validity *)

Definition Valid (d : Daytime) : bool := d <=? EndOfDay.
Definition IsEndOfDay (d : Daytime) : bool := d =? EndOfDay.
Definition IsInDay (d : Daytime) : bool := d <? EndOfDay.

(** *** Creation *)

Definition fmt_hms (hour minute second : int) : string :=
  (fmt.Sprintf_02d hour ++ ":" ++ fmt.Sprintf_02d minute ++ ":"
   ++ fmt.Sprintf_02d second)%string.

Definition New (hour minute second : int) : Daytime * option error :=
  if (hour <? 0) || (hour >? hoursInDay)
     || (minute <? 0) || (minute >? 59)
     || (second <? 0) || (second >? 59)
  then (to_uint32 0,
        errorf "New" (AnyString (fmt_hms hour minute second))
          (Some (Sentinel ErrInvalidTimeComponent)))
  else if (hour =? hoursInDay) && (negb (minute =? 0) || negb (second =? 0))
  then (to_uint32 0,
        errorf "New" (AnyString (fmt_hms hour minute second))
          (Some (Sentinel ErrEndOfDayExceeded)))
  else
    let total := add (add (mul hour 3600) (mul minute 60)) second in
    if total >? secondsInDay then (EndOfDay, None)
    else (of_int total, None).

(** [Must] either returns the daytime or panics with the error of [New]. *)
Inductive outcome (A : Type) : Type :=
| Returns (a : A)
| Panics (e : error).

Arguments Returns {A} a.
Arguments Panics {A} e.

Definition Must (hour minute second : int) : outcome Daytime :=
  match New hour minute second with
  | (_, Some err) => Panics err
  | (d, None) => Returns d
  end.

(** *** Helper functions *)

Definition parseSeconds (s : string) : int * option error :=
  match strconv.Atoi s with
  | None =>
      (0, errorf "parseSeconds" (AnyString s) (Some (Sentinel ErrInvalidFormat)))
  | Some sec =>
      if (sec <? 0) || (sec >? secondsInDay)
      then (0, errorf "parseSeconds" (AnyInt sec)
                 (Some (Sentinel ErrValueOutOfRange)))
      else (sec, None)
  end.

(** The directives of the format ["%d:%d:%d"]. *)
Definition format_hms : list fmt.directive :=
  [fmt.Verb_d; fmt.Lit ":"; fmt.Verb_d; fmt.Lit ":"; fmt.Verb_d].

Definition parseTimeString (s : string) : int * option error :=
  if negb (Z.of_nat (String.length s) =? 8)
  then (0, errorf "parseTimeString" (AnyString s)
             (Some (Sentinel ErrInvalidFormat)))
  else
    let '(stored, err) := fmt.Sscanf s format_hms in
    let n := Z.of_nat (List.length stored) in
    let hour := nth 0 stored 0 in
    let minute := nth 1 stored 0 in
    let second := nth 2 stored 0 in
    if (match err with Some _ => true | None => false end) || negb (n =? 3)
    then (0, errorf "parseTimeString" (AnyString s)
               (Some (Sentinel ErrInvalidFormat)))
    else if (hour <? 0) || (hour >? hoursInDay)
            || (minute <? 0) || (minute >? 59)
            || (second <? 0) || (second >? 59)
    then (0, errorf "parseTimeString"
               (AnyString (fmt_hms hour minute second))
               (Some (Sentinel ErrInvalidTimeComponent)))
    else if (hour =? hoursInDay)
            && (negb (minute =? 0) || negb (second =? 0))
    then (0, errorf "parseTimeString"
               (AnyString (fmt_hms hour minute second))
               (Some (Sentinel ErrEndOfDayExceeded)))
    else
      let total := add (add (mul hour 3600) (mul minute 60)) second in
      if total >? secondsInDay
      then (0, errorf "parseTimeString"
                 (AnyString (fmt_hms hour minute second))
                 (Some (Sentinel ErrValueOutOfRange)))
      else (total, None).

Definition Parse (s : string) : Daytime * option error :=
  if String.eqb s EmptyString
  then (to_uint32 0, errorf "Parse" (AnyString s) (Some (Sentinel ErrInvalidFormat)))
  else
    match parseSeconds s with
    | (sec, None) => (of_int sec, None)
    | (_, Some _) =>
        match parseTimeString s with
        | (sec, None) => (of_int sec, None)
        | (_, Some _) =>
            (to_uint32 0,
             errorf "Parse" (AnyString s) (Some (Sentinel ErrInvalidFormat)))
        end
    end.

(** *** Time components *)

Definition Clock (d : Daytime) : int * int * int :=
  if d =? EndOfDay then (hoursInDay, 0, 0)
  else
    let sec := int_of d in
    let hour := quot sec 3600 in
    let minute := quot (rem sec 3600) 60 in
    let second := rem sec 60 in
    (hour, minute, second).

Definition Hour (d : Daytime) : int :=
  let '(hour, _, _) := Clock d in hour.

Definition Minute (d : Daytime) : int :=
  let '(_, minute, _) := Clock d in minute.

Definition Second (d : Daytime) : int :=
  let '(_, _, second) := Clock d in second.

(** [time.Duration] is an [int64] count of nanoseconds and [time.Second] is
    1e9 of them. *)
Definition Duration (d : Daytime) : int := mul (int_of d) 1000000000.

(** *** Comparison *)

Definition Before (d other : Daytime) : bool :=
  if d =? EndOfDay then false
  else if other =? EndOfDay then true
  else d <? other.

Definition After (d other : Daytime) : bool := Before other d.

Definition Equal (d other : Daytime) : bool := d =? other.

Definition Compare (d other : Daytime) : int :=
  if d =? other then 0
  else if Before d other then -1
  else 1.

Definition Between (d start end_ : Daytime) : bool :=
  if negb (Valid d) || negb (Valid start) || negb (Valid end_) then false
  else if start =? end_ then d =? start
  else if Before start end_ then negb (Before d start) && negb (After d end_)
  else negb (Before d start) || negb (After d end_).

(** Of a [time.Time] the package reads the result of its [Clock] method and
    nothing else; [fromTime] is given that triple. *)
Definition fromTime (clock : int * int * int) : Daytime :=
  let '(hour, min, sec) := clock in
  let total :=
    add32 (add32 (mul32 (to_uint32 hour) 3600) (mul32 (to_uint32 min) 60))
      (to_uint32 sec) in
  total.

Definition FromTime (clock : int * int * int) : Daytime := fromTime clock.

Definition BeforeTime (d : Daytime) (clock : int * int * int) : bool :=
  Before d (fromTime clock).

Definition AfterTime (d : Daytime) (clock : int * int * int) : bool :=
  After d (fromTime clock).

Definition EqualTime (d : Daytime) (clock : int * int * int) : bool :=
  Equal d (fromTime clock).

(** *** Arithmetic *)

Definition Add (d : Daytime) (seconds : int) : Daytime * int :=
  if negb (Valid d) then (d, 0)
  else
    let baseValue := int_of d in
    let total := add baseValue seconds in
    let days := quot total secondsInDay in
    let remainder := rem total secondsInDay in
    let '(remainder, days) :=
      if remainder <? 0 then (add remainder secondsInDay, sub days 1)
      else (remainder, days) in
    if total =? secondsInDay then (EndOfDay, 0)
    else if remainder =? 0 then (StartOfDay, days)
    else (of_int remainder, days).

Definition Sub (d : Daytime) (seconds : int) : Daytime * int :=
  Add d (neg seconds).

Definition Diff (d other : Daytime) : int * int :=
  if negb (Valid d) || negb (Valid other) then (0, 0)
  else
    let baseSeconds := int_of d in
    let otherSeconds := int_of other in
    let baseSeconds :=
      if (d =? EndOfDay) && negb (d =? other) then secondsInDay
      else baseSeconds in
    let otherSeconds :=
      if (other =? EndOfDay) && negb (d =? other) then secondsInDay
      else otherSeconds in
    let diff := sub baseSeconds otherSeconds in
    let days := quot diff secondsInDay in
    let seconds := rem diff secondsInDay in
    if seconds <? 0 then (add seconds secondsInDay, sub days 1)
    else (seconds, days).

Definition Mul (d : Daytime) (factor : int) : Daytime * int :=
  if negb (Valid d) then (d, 0)
  else
    let baseValue := int_of d in
    let total := mul baseValue factor in
    let days := quot total secondsInDay in
    let remainder := rem total secondsInDay in
    let '(remainder, days) :=
      if remainder <? 0 then (add remainder secondsInDay, sub days 1)
      else (remainder, days) in
    if total =? secondsInDay then (EndOfDay, 0)
    else if remainder =? 0 then (StartOfDay, days)
    else (of_int remainder, days).

Definition Div (d : Daytime) (divisor : int) : Daytime * int * option error :=
  if divisor =? 0
  then (to_uint32 0, 0,
        errorf "Div" (AnyInt divisor) (Some (Sentinel ErrDivisionByZero)))
  else if negb (Valid d) then (d, 0, None)
  else
    let value := if d =? EndOfDay then secondsInDay else int_of d in
    let quotient := quot value divisor in
    let remainder := rem value divisor in
    if (quotient <? 0) || (quotient >? secondsInDay)
    then (to_uint32 0, 0,
          errorf "Div" (AnyInt quotient) (Some (Sentinel ErrValueOutOfRange)))
    else (of_int quotient, remainder, None).

Definition Mod (d : Daytime) (modulus : int) : Daytime * option error :=
  if modulus <=? 0
  then (to_uint32 0,
        errorf "Mod" (AnyInt modulus) (Some (Sentinel ErrInvalidModulus)))
  else if negb (Valid d) then (d, None)
  else
    let value := if d =? EndOfDay then secondsInDay else int_of d in
    let result := rem value modulus in
    let result := if result <? 0 then add result modulus else result in
    (of_int result, None).

(** Modelled from the spec: [UnmarshalText] is exercised by the package's
    tests but its body is not part of [daytime.go].  It parses with [Parse];
    any failure becomes a single [ErrInvalidFormat] failure and leaves the
    receiver at its zero value.  The first component is the receiver after
    the call. *)
Definition UnmarshalText (d : Daytime) (text : string)
  : Daytime * option error :=
  match Parse text with
  | (parsed, None) => (parsed, None)
  | (_, Some _) =>
      (StartOfDay,
       errorf "UnmarshalText" (AnyString text) (Some (Sentinel ErrInvalidFormat)))
  end.

(** *** String representations *)

Definition String (d : Daytime) : string :=
  if negb (Valid d) then "invalid"%string
  else if d =? EndOfDay then "24:00:00"%string
  else
    let '(hour, minute, second) := Clock d in
    fmt_hms hour minute second.

End daytime.
(** ** Specification vocabulary *)

(** What [Add] and [Mul] make of a total, in floored division. *)
Definition day_normal (T : Z) : daytime.Daytime * GoInt.int :=
  if T =? 86400 then (daytime.EndOfDay, 0) else (T mod 86400, T / 86400).

(** Adding [s] and then adding [-s] comes back to [d], and the two counts of
    days crossed cancel. *)
Definition add_roundtrip (d : daytime.Daytime) (s : GoInt.int) : Prop :=
  let '(d1, k1) := daytime.Add d s in
  let '(d2, k2) := daytime.Add d1 (GoInt.neg s) in
  d2 = d /\ k1 + k2 = 0.

(** The sentinel behind an optional error. *)
Definition cause (err : option daytime.error) : option daytime.sentinel :=
  option_map daytime.root_cause err.

(** The character of a decimal digit, and the two-digit text of a number
    below one hundred. *)
Definition dig (x : Z) : ascii := ascii_of_N (Z.to_N (48 + x)).

Definition two (n : Z) : string :=
  String (dig (n / 10)) (String (dig (n mod 10)) EmptyString).

(** The rank of a value in the package's ordering: raw values in their
    order, [EndOfDay] after all of them. *)
Definition rank (d : daytime.Daytime) : Z :=
  if d =? 86400 then 2 ^ 32 else d.

(** The components [New] accepts. *)
Definition clock_ok (hour minute second : GoInt.int) : Prop :=
  0 <= hour <= 24 /\ 0 <= minute <= 59 /\ 0 <= second <= 59
  /\ (hour = 24 -> minute = 0 /\ second = 0).

(** Texts made of decimal digits only. *)
Fixpoint all_decimal (s : string) : bool :=
  match s with
  | EmptyString => true
  | String c rest => is_decimal c && all_decimal rest
  end.


(** * Verification *)

Import GoInt daytime.

(** ** Facts about the machine integers *)

Lemma wrap_id x : is_int x -> wrap x = x.
Proof.
  unfold is_int, wrap, min_int, max_int. intros H.
  rewrite Z.mod_small; lia.
Qed.

Lemma wrap_is_int x : is_int (wrap x).
Proof.
  unfold is_int, wrap, min_int, max_int.
  pose proof (Z.mod_pos_bound (x + 2 ^ 63) (2 ^ 64) ltac:(lia)). lia.
Qed.

Lemma to_uint32_id x : is_uint32 x -> to_uint32 x = x.
Proof. unfold is_uint32, to_uint32. intros H. apply Z.mod_small; lia. Qed.

Lemma add_is_int x y : is_int (add x y).
Proof. apply wrap_is_int. Qed.

Lemma mul_is_int x y : is_int (mul x y).
Proof. apply wrap_is_int. Qed.

Lemma add_exact x y : is_int (x + y) -> add x y = x + y.
Proof. apply wrap_id. Qed.

Lemma EndOfDay_eq : EndOfDay = 86400.
Proof. reflexivity. Qed.

Lemma StartOfDay_eq : StartOfDay = 0.
Proof. reflexivity. Qed.

Lemma Valid_true d : Valid d = true <-> d <= 86400.
Proof. unfold Valid. rewrite EndOfDay_eq. apply Z.leb_le. Qed.

Lemma Valid_false d : Valid d = false <-> 86400 < d.
Proof. unfold Valid. rewrite EndOfDay_eq. apply Z.leb_gt. Qed.

(** Truncated quotient and remainder by the length of a day, after the
    source's adjustment of a negative remainder, are the floored ones. *)
Lemma floor_adjust T :
  is_int T ->
  (if rem T secondsInDay <? 0
   then (add (rem T secondsInDay) secondsInDay, sub (quot T secondsInDay) 1)
   else (rem T secondsInDay, quot T secondsInDay))
  = (T mod 86400, T / 86400).
Proof.
  intros HT. unfold rem, quot, add, sub, secondsInDay.
  assert (Hq : is_int (T ÷ 86400)).
  { unfold is_int, min_int, max_int in *.
    Z.to_euclidean_division_equations; lia. }
  rewrite (wrap_id _ Hq).
  destruct (Z.ltb_spec (Z.rem T 86400) 0) as [Hneg | Hpos].
  - rewrite !wrap_id.
    + f_equal; Z.to_euclidean_division_equations; lia.
    + unfold is_int, min_int, max_int in *.
      Z.to_euclidean_division_equations; lia.
    + unfold is_int, min_int, max_int in *.
      Z.to_euclidean_division_equations; lia.
  - f_equal; Z.to_euclidean_division_equations; lia.
Qed.

Lemma floor_day_bounds T : 0 <= T mod 86400 <= 86399.
Proof. pose proof (Z.mod_pos_bound T 86400 ltac:(lia)). lia. Qed.

Lemma normalize_total T :
  is_int T ->
  (let '(remainder, days) :=
     if rem T secondsInDay <? 0
     then (add (rem T secondsInDay) secondsInDay, sub (quot T secondsInDay) 1)
     else (rem T secondsInDay, quot T secondsInDay) in
   if T =? secondsInDay then (EndOfDay, 0)
   else if remainder =? 0 then (StartOfDay, days)
   else (of_int remainder, days))
  = day_normal T.
Proof.
  intros HT. rewrite (floor_adjust T HT). unfold day_normal, secondsInDay.
  destruct (T =? 86400); [reflexivity|].
  pose proof (floor_day_bounds T) as Hb.
  destruct (Z.eqb_spec (T mod 86400) 0) as [E | E].
  - rewrite E. reflexivity.
  - unfold of_int. rewrite to_uint32_id; [reflexivity|].
    unfold is_uint32. lia.
Qed.

Lemma Add_valid d s :
  Valid d = true -> Add d s = day_normal (add (int_of d) s).
Proof.
  intros Hv. unfold Add. rewrite Hv. cbn [negb].
  apply normalize_total, add_is_int.
Qed.

Lemma Mul_valid d f :
  Valid d = true -> Mul d f = day_normal (mul (int_of d) f).
Proof.
  intros Hv. unfold Mul. rewrite Hv. cbn [negb].
  apply normalize_total, mul_is_int.
Qed.

Lemma Add_invalid d s : Valid d = false -> Add d s = (d, 0).
Proof. intros Hv. unfold Add. rewrite Hv. reflexivity. Qed.

Lemma Mul_invalid d f : Valid d = false -> Mul d f = (d, 0).
Proof. intros Hv. unfold Mul. rewrite Hv. reflexivity. Qed.

(** ** Add *)

(** C1.  For a valid [d] and any [int] [s], with [T] the sum [int(d) + s] as
    the code computes it, [Add d s] is [(EndOfDay, 0)] exactly when
    [T = 86400]; otherwise it is [(r, q)] with [q] the floored quotient of
    [T] by 86400 and [r = T - 86400 * q], which lies in [0, 86399], a zero
    [r] being [StartOfDay] with [q] days.  For an invalid [d] the result is
    [(d, 0)].  The sum is the mathematical one unless it exceeds the largest
    [int]. *)
Theorem Add_floored_normal_form (d : Daytime) (s : int) :
  is_uint32 d -> is_int s ->
  let T := add (int_of d) s in
  (Valid d = true ->
     (Add d s = (EndOfDay, 0) <-> T = 86400)
     /\ (T <> 86400 ->
         let q := T / 86400 in
         let r := T - 86400 * q in
         Add d s = (of_int r, q)
         /\ of_int r = r
         /\ 0 <= r <= 86399
         /\ (r = 0 -> Add d s = (StartOfDay, q)))
     /\ (int_of d + s <= max_int -> T = int_of d + s))
  /\ (Valid d = false -> Add d s = (d, 0)).
Proof.
  intros Hd Hs T. split; [|apply Add_invalid].
  intros Hv. rewrite (Add_valid d s Hv). fold T. unfold day_normal.
  assert (Hmod : forall q, q = T / 86400 -> T - 86400 * q = T mod 86400).
  { intros q ->. rewrite Z.mod_eq by lia. reflexivity. }
  pose proof (floor_day_bounds T) as Hb.
  split; [|split].
  - destruct (Z.eqb_spec T 86400) as [E | E].
    + tauto.
    + split; [|tauto]. intros H. inversion H as [[Hr Hq]].
      rewrite EndOfDay_eq in Hr. lia.
  - intros HT. rewrite (Hmod _ eq_refl).
    destruct (Z.eqb_spec T 86400) as [E | _]; [contradiction|].
    assert (Hid : of_int (T mod 86400) = T mod 86400).
    { apply to_uint32_id. unfold is_uint32. lia. }
    rewrite Hid. repeat split; try lia.
    intros ->. reflexivity.
  - intros Hle. apply add_exact.
    apply Valid_true in Hv.
    unfold is_uint32 in Hd. unfold is_int, min_int, max_int, int_of in *. lia.
Qed.

Lemma Add_floored_normal_form_witness :
  is_uint32 82800 /\ is_int 7200
  /\ Valid 82800 = true
  /\ add (int_of 82800) 7200 <> 86400
  /\ Add 82800 7200 = (3600, 1).
Proof.
  assert (Hd : is_uint32 82800) by (unfold is_uint32; lia).
  assert (Hs : is_int 7200) by (unfold is_int, min_int, max_int; lia).
  assert (Hv : Valid 82800 = true) by reflexivity.
  assert (HT : add (int_of 82800) 7200 <> 86400) by (vm_compute; discriminate).
  split; [exact Hd|]. split; [exact Hs|]. split; [exact Hv|].
  split; [exact HT|].
  destruct (Add_floored_normal_form 82800 7200 Hd Hs) as [Hvalid _].
  destruct (Hvalid Hv) as (_ & Hrest & _).
  destruct (Hrest HT) as (Heq & _).
  exact Heq.
Defined.

(** ** Add and then Add of the opposite *)

Lemma day_normal_valid T : Valid (fst (day_normal T)) = true.
Proof.
  unfold day_normal. destruct (T =? 86400); cbn [fst]; [reflexivity|].
  apply Valid_true. pose proof (floor_day_bounds T). lia.
Qed.

Lemma neg_exact s : min_int < s -> is_int s -> neg s = - s.
Proof.
  intros Hlo Hs. apply wrap_id.
  unfold is_int, min_int, max_int in *. lia.
Qed.

(** The round trip in closed form, away from overflow. *)
Lemma add_roundtrip_unfold d s :
  is_uint32 d -> Valid d = true -> Z.abs s <= max_int - 86400 ->
  add_roundtrip d s <->
  (let '(d1, k1) := day_normal (d + s) in
   let '(d2, k2) := day_normal (d1 - s) in
   d2 = d /\ k1 + k2 = 0).
Proof.
  intros Hd Hv Habs. unfold add_roundtrip.
  apply Valid_true in Hv as Hle. unfold is_uint32, int_of in *.
  assert (Hs : is_int s) by (unfold is_int, min_int, max_int in *; lia).
  assert (Hlo : min_int < s) by (unfold min_int, max_int in *; lia).
  rewrite (Add_valid d s Hv). unfold int_of.
  rewrite add_exact by (unfold is_int, min_int, max_int in *; lia).
  rewrite (neg_exact s Hlo Hs).
  pose proof (day_normal_valid (d + s)) as Hv1.
  destruct (day_normal (d + s)) as [d1 k1] eqn:E1. cbn [fst] in Hv1.
  rewrite (Add_valid d1 (- s) Hv1). unfold int_of.
  assert (H1 : 0 <= d1 <= 86400).
  { apply Valid_true in Hv1. split; [|exact Hv1].
    unfold day_normal in E1. destruct (d + s =? 86400).
    - inversion E1. rewrite EndOfDay_eq. lia.
    - inversion E1. pose proof (floor_day_bounds (d + s)). lia. }
  rewrite add_exact by (unfold is_int, min_int, max_int in *; lia).
  replace (d1 + - s) with (d1 - s) by lia. reflexivity.
Qed.

(** C2, as amended.  For a valid [d] and an [s] of magnitude at most
    [max_int - 86400] (no sum overflows), adding [s] and then [-s] returns to
    [d] with the day counts cancelling, except from [EndOfDay] with [s]
    outside [-86400, 0] and from [StartOfDay] with [s] in [-86400, -1]; in
    those two cases it does not. *)
Theorem Add_roundtrip_iff (d : Daytime) (s : int) :
  is_uint32 d -> Valid d = true -> Z.abs s <= max_int - 86400 ->
  add_roundtrip d s <->
  ~ (d = EndOfDay /\ (s < -86400 \/ 0 < s))
  /\ ~ (d = StartOfDay /\ -86400 <= s <= -1).
Proof.
  intros Hd Hv Habs. rewrite (add_roundtrip_unfold d s Hd Hv Habs).
  apply Valid_true in Hv. unfold is_uint32 in Hd.
  unfold day_normal. rewrite !EndOfDay_eq, StartOfDay_eq.
  destruct (Z.eqb_spec (d + s) 86400) as [E1 | E1].
  - destruct (Z.eqb_spec (86400 - s) 86400) as [E2 | E2].
    + lia.
    + split.
      * intros [H1 H2]. lia.
      * intros _. split; Z.to_euclidean_division_equations; lia.
  - destruct (Z.eqb_spec ((d + s) mod 86400 - s) 86400) as [E2 | E2].
    + split.
      * intros [H1 H2]. Z.to_euclidean_division_equations; lia.
      * intros [H1 H2]. Z.to_euclidean_division_equations; lia.
    + split.
      * intros [H1 H2]. Z.to_euclidean_division_equations; lia.
      * intros [H1 H2]. Z.to_euclidean_division_equations; lia.
Qed.

Lemma Add_roundtrip_iff_witness :
  is_uint32 43200 /\ Valid 43200 = true /\ Z.abs 3600 <= max_int - 86400
  /\ add_roundtrip 43200 3600.
Proof.
  assert (Hd : is_uint32 43200) by (unfold is_uint32; lia).
  assert (Hv : Valid 43200 = true) by reflexivity.
  assert (Hs : Z.abs 3600 <= max_int - 86400) by (unfold max_int; lia).
  split; [exact Hd|]. split; [exact Hv|]. split; [exact Hs|].
  apply (proj2 (Add_roundtrip_iff 43200 3600 Hd Hv Hs)).
  rewrite EndOfDay_eq, StartOfDay_eq. lia.
Defined.

(** From [EndOfDay], one second forward and one second back ends on
    [StartOfDay], one day later. *)
Lemma Add_roundtrip_fails_from_EndOfDay :
  is_uint32 EndOfDay /\ Valid EndOfDay = true /\ is_int 1
  /\ Add EndOfDay 1 = (1, 1)
  /\ Add 1 (neg 1) = (StartOfDay, 0)
  /\ ~ add_roundtrip EndOfDay 1.
Proof.
  split; [vm_compute; split; [discriminate | reflexivity]|].
  split; [reflexivity|].
  split; [vm_compute; split; discriminate|].
  split; [reflexivity|]. split; [reflexivity|].
  unfold add_roundtrip. vm_compute. intros [H _]. discriminate H.
Qed.

(** From [StartOfDay], one second back and one second forward ends on
    [EndOfDay], with a day count of -1. *)
Lemma Add_roundtrip_fails_from_StartOfDay :
  Add StartOfDay (-1) = (86399, -1)
  /\ Add 86399 (neg (-1)) = (EndOfDay, 0)
  /\ ~ add_roundtrip StartOfDay (-1).
Proof.
  split; [reflexivity|]. split; [reflexivity|].
  unfold add_roundtrip. vm_compute. intros [H _]. discriminate H.
Qed.

(** ** Ordering *)

Lemma Before_valid a b :
  a <= 86400 -> b <= 86400 -> Before a b = (a <? b).
Proof.
  intros Ha Hb. unfold Before. rewrite EndOfDay_eq.
  destruct (Z.eqb_spec a 86400), (Z.eqb_spec b 86400), (Z.ltb_spec a b);
    try reflexivity; lia.
Qed.

(** C4.  In the wraparound case, [start] after [end], membership of a valid
    [d] is: [d] not before [start], or [d] not after [end]; on valid values
    that is [start <= d] or [d <= end] as integers, so both endpoints
    belong.  The interval from [EndOfDay] to [StartOfDay] holds these two
    values only. *)
Theorem Between_wraparound (d start end_ : Daytime) :
  is_uint32 d ->
  Valid d = true -> Valid start = true -> Valid end_ = true ->
  After start end_ = true ->
  (Between d start end_ = negb (Before d start) || negb (After d end_))
  /\ (Between d start end_ = true <->
      (0 <= Compare d start \/ Compare d end_ <= 0))
  /\ (Between d start end_ = true <-> (start <= d \/ d <= end_))
  /\ Between start start end_ = true
  /\ Between end_ start end_ = true
  /\ (Between d EndOfDay StartOfDay = true <->
      (d = StartOfDay \/ d = EndOfDay)).
Proof.
  intros Hu Hd Hs He Hafter.
  assert (Hdegenerate : Between d EndOfDay StartOfDay = true <->
                        (d = StartOfDay \/ d = EndOfDay)).
  { unfold Between, After, Before. rewrite Hd.
    rewrite !EndOfDay_eq, !StartOfDay_eq. cbn.
    unfold is_uint32 in Hu.
    destruct (Z.eqb_spec d 86400), (Z.eqb_spec d 0), (Z.ltb_spec 0 d);
      cbn; split; intros; try reflexivity; try discriminate; lia. }
  apply Valid_true in Hd as Hd', Hs as Hs', He as He'.
  unfold After in Hafter. rewrite Before_valid in Hafter by assumption.
  apply Z.ltb_lt in Hafter.
  assert (Hgen : forall x, Valid x = true ->
            Between x start end_ = negb (Before x start) || negb (After x end_)).
  { intros x Hx. unfold Between. rewrite Hx, Hs, He. cbn [negb orb].
    destruct (Z.eqb_spec start end_) as [E | _]; [lia|].
    rewrite (Before_valid start end_) by assumption.
    destruct (Z.ltb_spec start end_); [lia | reflexivity]. }
  assert (Hraw : forall x, Valid x = true ->
            (Between x start end_ = true <-> (start <= x \/ x <= end_))).
  { intros x Hx. rewrite (Hgen x Hx). apply Valid_true in Hx as Hx'.
    unfold After. rewrite !Before_valid by assumption.
    destruct (Z.ltb_spec x start), (Z.ltb_spec end_ x); cbn; split;
      intros; try reflexivity; try discriminate; lia. }
  split; [apply Hgen, Hd|]. split; [|split; [apply Hraw, Hd|]].
  - rewrite (Hraw d Hd). unfold Compare.
    rewrite !Before_valid by assumption.
    destruct (Z.eqb_spec d start), (Z.eqb_spec d end_),
      (Z.ltb_spec d start), (Z.ltb_spec d end_); lia.
  - split; [apply (Hraw start Hs); lia|].
    split; [apply (Hraw end_ He); lia | exact Hdegenerate].
Qed.

Lemma Between_wraparound_witness :
  is_uint32 82800
  /\ Valid 82800 = true /\ Valid 82800 = true /\ Valid 3600 = true
  /\ After 82800 3600 = true
  /\ Between 82800 82800 3600
     = negb (Before 82800 82800) || negb (After 82800 3600).
Proof.
  assert (Hv : Valid 82800 = true) by reflexivity.
  assert (He : Valid 3600 = true) by reflexivity.
  assert (Ha : After 82800 3600 = true) by reflexivity.
  assert (Hu : is_uint32 82800) by (unfold is_uint32; lia).
  split; [exact Hu|].
  split; [exact Hv|]. split; [exact Hv|]. split; [exact He|].
  split; [exact Ha|].
  exact (proj1 (Between_wraparound 82800 82800 3600 Hu Hv Hv He Ha)).
Defined.

(** C5, as amended.  [Before a b] is the integer comparison [int(a) <
    int(b)] for every pair except those made of [EndOfDay] and an invalid
    value, where the two differ; in particular they agree on valid values. *)
Theorem Before_raw_order_iff (a b : Daytime) :
  Before a b = (int_of a <? int_of b) <->
  ~ (a = EndOfDay /\ EndOfDay < b) /\ ~ (b = EndOfDay /\ EndOfDay < a).
Proof.
  unfold Before, int_of. rewrite !EndOfDay_eq.
  destruct (Z.eqb_spec a 86400), (Z.eqb_spec b 86400), (Z.ltb_spec a b);
    split; intros; try reflexivity; try discriminate; lia.
Qed.

Lemma Before_raw_order_valid (a b : Daytime) :
  Valid a = true -> Valid b = true -> Before a b = (int_of a <? int_of b).
Proof.
  intros Ha Hb. apply Valid_true in Ha, Hb.
  apply Before_valid; assumption.
Qed.

(** An invalid value is before [EndOfDay] although it is the larger
    integer, and [EndOfDay] is not before an invalid value although it is the
    smaller one. *)
Lemma Before_differs_from_raw_order :
  is_uint32 86401
  /\ Before 86401 EndOfDay = true
  /\ (int_of 86401 <? int_of EndOfDay) = false
  /\ Before EndOfDay 86401 = false
  /\ (int_of EndOfDay <? int_of 86401) = true.
Proof.
  split; [unfold is_uint32; lia|]. repeat split.
Qed.

(** ** Diff *)

(** With [EndOfDay] already 86400, the two substitutions of [Diff] change
    nothing and the result is the floored division of the raw difference. *)
Lemma Diff_valid d other :
  is_uint32 d -> is_uint32 other ->
  Valid d = true -> Valid other = true ->
  Diff d other = ((d - other) mod 86400, (d - other) / 86400).
Proof.
  intros Hd Ho Hv Hw. unfold Diff. rewrite Hv, Hw. cbn [negb orb].
  apply Valid_true in Hv, Hw. unfold is_uint32 in *.
  assert (Hb : (if (d =? EndOfDay) && negb (d =? other)
                then secondsInDay else int_of d) = d).
  { rewrite EndOfDay_eq. unfold secondsInDay, int_of.
    destruct (Z.eqb_spec d 86400); cbn; [|reflexivity].
    destruct (negb (d =? other)); congruence. }
  assert (Hc : (if (other =? EndOfDay) && negb (d =? other)
                then secondsInDay else int_of other) = other).
  { rewrite EndOfDay_eq. unfold secondsInDay, int_of.
    destruct (Z.eqb_spec other 86400); cbn; [|reflexivity].
    destruct (negb (d =? other)); congruence. }
  rewrite Hb, Hc.
  assert (Hdiff : sub d other = d - other).
  { apply wrap_id. unfold is_int, min_int, max_int. lia. }
  rewrite Hdiff. apply floor_adjust.
  unfold is_int, min_int, max_int. lia.
Qed.

(** C6.  On valid operands [Diff] is the floored quotient and remainder of
    the difference of the two values, [EndOfDay] counting as 86400 on either
    side; equal operands give [(0, 0)]; the seconds lie in [0, 86399];
    [EndOfDay.Diff(StartOfDay)] is [(0, 1)] and [StartOfDay.Diff(EndOfDay)]
    is [(0, -1)]; an invalid operand gives [(0, 0)]. *)
Theorem Diff_floored (d other : Daytime) :
  is_uint32 d -> is_uint32 other ->
  (Valid d = true -> Valid other = true ->
     let v x := if x =? EndOfDay then 86400 else int_of x in
     Diff d other = ((v d - v other) mod 86400, (v d - v other) / 86400)
     /\ 0 <= fst (Diff d other) <= 86399
     /\ (d = other -> Diff d other = (0, 0)))
  /\ (Valid d = false \/ Valid other = false -> Diff d other = (0, 0))
  /\ Diff EndOfDay StartOfDay = (0, 1)
  /\ Diff StartOfDay EndOfDay = (0, -1).
Proof.
  intros Hd Ho. split; [|split; [|split; reflexivity]].
  - intros Hv Hw v.
    assert (Hval : forall x, v x = x).
    { intros x. unfold v, int_of. rewrite EndOfDay_eq.
      destruct (Z.eqb_spec x 86400); congruence. }
    rewrite !Hval, (Diff_valid d other Hd Ho Hv Hw). cbn [fst].
    split; [reflexivity|]. split; [apply floor_day_bounds|].
    intros ->. rewrite Z.sub_diag. reflexivity.
  - intros [H | H]; unfold Diff; rewrite H; [reflexivity|].
    rewrite orb_true_r. reflexivity.
Qed.

Lemma Diff_floored_witness :
  is_uint32 3600 /\ is_uint32 43200
  /\ Valid 3600 = true /\ Valid 43200 = true
  /\ Diff 3600 43200 = (46800, -1).
Proof.
  assert (Hd : is_uint32 3600) by (unfold is_uint32; lia).
  assert (Ho : is_uint32 43200) by (unfold is_uint32; lia).
  assert (Hv : Valid 3600 = true) by reflexivity.
  assert (Hw : Valid 43200 = true) by reflexivity.
  split; [exact Hd|]. split; [exact Ho|]. split; [exact Hv|].
  split; [exact Hw|].
  destruct (Diff_floored 3600 43200 Hd Ho) as [Hvalid _].
  destruct (Hvalid Hv Hw) as [Heq _].
  exact Heq.
Defined.

(** ** Invalid receivers *)

(** C7.  Every defensive operation leaves an invalid daytime alone: [Add]
    and [Mul] return it with zero days, [Div] by a non-zero divisor returns
    it with remainder zero and no error, [Mod] by a positive modulus returns
    it with no error, [Diff] with an invalid operand is [(0, 0)], [Between]
    with an invalid argument is false, and [String] is ["invalid"]. *)
Theorem invalid_is_inert (d : Daytime) :
  is_uint32 d -> Valid d = false ->
  (forall s, Add d s = (d, 0))
  /\ (forall f, Mul d f = (d, 0))
  /\ (forall k, k <> 0 -> Div d k = (d, 0, None))
  /\ (forall m, 0 < m -> Mod d m = (d, None))
  /\ (forall other, Diff d other = (0, 0) /\ Diff other d = (0, 0))
  /\ (forall x y, Between d x y = false /\ Between x d y = false
                  /\ Between x y d = false)
  /\ daytime.String d = "invalid"%string.
Proof.
  intros _ Hv. repeat split.
  - intros s. apply Add_invalid, Hv.
  - intros f. apply Mul_invalid, Hv.
  - intros k Hk. unfold Div. rewrite Hv.
    destruct (Z.eqb_spec k 0); [contradiction | reflexivity].
  - intros m Hm. unfold Mod. rewrite Hv.
    destruct (Z.leb_spec m 0); [lia | reflexivity].
  - unfold Diff. rewrite Hv. reflexivity.
  - unfold Diff. rewrite Hv. rewrite orb_true_r. reflexivity.
  - unfold Between. rewrite Hv. reflexivity.
  - unfold Between. rewrite Hv. cbn [negb]. rewrite orb_true_r. reflexivity.
  - unfold Between. rewrite Hv. cbn [negb]. rewrite orb_true_r. reflexivity.
  - unfold daytime.String. rewrite Hv. reflexivity.
Qed.

Lemma invalid_is_inert_witness :
  is_uint32 90000 /\ Valid 90000 = false
  /\ Add 90000 5 = (90000, 0)
  /\ Div 90000 7 = (90000, 0, None)
  /\ daytime.String 90000 = "invalid"%string.
Proof.
  assert (Hd : is_uint32 90000) by (unfold is_uint32; lia).
  assert (Hv : Valid 90000 = false) by reflexivity.
  split; [exact Hd|]. split; [exact Hv|].
  destruct (invalid_is_inert 90000 Hd Hv)
    as (HAdd & _ & HDiv & _ & _ & _ & HString).
  split; [apply HAdd|]. split; [apply HDiv; lia | exact HString].
Defined.

(** ** Div *)

(** C10.  [StartOfDay] divided by a negative divisor is [StartOfDay] with
    remainder zero and no error.  A negative divisor is refused only for a
    strictly positive dividend, and then with [ErrValueOutOfRange]. *)
Theorem Div_negative_divisor (k : int) :
  is_int k -> k < 0 ->
  Div StartOfDay k = (StartOfDay, 0, None)
  /\ (forall d e, is_uint32 d -> Valid d = true ->
        snd (Div d k) = Some e ->
        0 < int_of d /\ root_cause e = ErrValueOutOfRange).
Proof.
  intros Hk Hneg. split.
  - unfold Div. destruct (Z.eqb_spec k 0); [lia|].
    reflexivity.
  - intros d e Hd Hv. unfold Div.
    destruct (Z.eqb_spec k 0); [lia|]. rewrite Hv. cbn [negb].
    set (value := if d =? EndOfDay then secondsInDay else int_of d).
    destruct ((quot value k <? 0) || (quot value k >? secondsInDay)) eqn:E;
      cbn [snd]; [|discriminate].
    intros He. inversion He; subst e. cbn [root_cause]. split; [|reflexivity].
    unfold is_uint32, int_of in *.
    destruct (Z.eq_dec d 0) as [-> | Hnz]; [|lia].
    exfalso. unfold value in E. discriminate E.
Qed.

Lemma Div_negative_divisor_witness :
  is_int (-5) /\ -5 < 0 /\ Div StartOfDay (-5) = (StartOfDay, 0, None).
Proof.
  assert (Hk : is_int (-5)) by (unfold is_int, min_int, max_int; lia).
  assert (Hn : -5 < 0) by lia.
  split; [exact Hk|]. split; [exact Hn|].
  exact (proj1 (Div_negative_divisor (-5) Hk Hn)).
Defined.

(** A negative divisor larger in magnitude than a positive dividend is
    accepted as well; one that is not is refused. *)
Example Div_negative_divisor_mixed :
  Div 43200 (-86401) = (StartOfDay, 43200, None)
  /\ Div 43200 (-1)
     = (StartOfDay, 0,
        Some (Error "Div" (AnyInt (-43200)) (Sentinel ErrValueOutOfRange))).
Proof. split; reflexivity. Qed.

(** ** Parse *)


Lemma Parse_after_both_fail s sec1 e1 sec2 e2 :
  s <> EmptyString ->
  parseSeconds s = (sec1, Some e1) ->
  parseTimeString s = (sec2, Some e2) ->
  Parse s = (0, Some (Error "Parse" (AnyString s) (Sentinel ErrInvalidFormat))).
Proof.
  intros Hne H1 H2. unfold Parse.
  destruct (String.eqb_spec s EmptyString) as [E | _]; [contradiction|].
  rewrite H1, H2. reflexivity.
Qed.

(** What [parseTimeString] makes of three scanned fields. *)
Section ScannedFields.

Variables (s : string) (hour minute second : int).
Hypothesis Hlen : String.length s = 8%nat.
Hypothesis Hscan : fmt.Sscanf s format_hms = ([hour; minute; second], None).

Lemma parseTimeString_scanned :
  parseTimeString s =
  if (hour <? 0) || (hour >? hoursInDay)
     || (minute <? 0) || (minute >? 59)
     || (second <? 0) || (second >? 59)
  then (0, Some (Error "parseTimeString"
                   (AnyString (fmt_hms hour minute second))
                   (Sentinel ErrInvalidTimeComponent)))
  else if (hour =? hoursInDay)
          && (negb (minute =? 0) || negb (second =? 0))
  then (0, Some (Error "parseTimeString"
                   (AnyString (fmt_hms hour minute second))
                   (Sentinel ErrEndOfDayExceeded)))
  else
    let total := add (add (mul hour 3600) (mul minute 60)) second in
    if total >? secondsInDay
    then (0, Some (Error "parseTimeString"
                     (AnyString (fmt_hms hour minute second))
                     (Sentinel ErrValueOutOfRange)))
    else (total, None).
Proof.
  unfold parseTimeString. rewrite Hlen, Hscan. reflexivity.
Qed.

Lemma parseTimeString_component :
  hour < 0 \/ 24 < hour \/ minute < 0 \/ 59 < minute
  \/ second < 0 \/ 59 < second ->
  parseTimeString s =
  (0, Some (Error "parseTimeString" (AnyString (fmt_hms hour minute second))
              (Sentinel ErrInvalidTimeComponent))).
Proof.
  intros Hout. rewrite parseTimeString_scanned. unfold hoursInDay.
  destruct (Z.ltb_spec hour 0), (Z.gtb_spec hour 24),
    (Z.ltb_spec minute 0), (Z.gtb_spec minute 59),
    (Z.ltb_spec second 0), (Z.gtb_spec second 59);
    cbn [orb]; try reflexivity; lia.
Qed.

Lemma parseTimeString_exceeded :
  hour = 24 -> 0 <= minute <= 59 -> 0 <= second <= 59 ->
  minute <> 0 \/ second <> 0 ->
  parseTimeString s =
  (0, Some (Error "parseTimeString" (AnyString (fmt_hms hour minute second))
              (Sentinel ErrEndOfDayExceeded))).
Proof.
  intros Hh Hm Hs Hnz. rewrite parseTimeString_scanned. unfold hoursInDay.
  destruct (Z.ltb_spec hour 0), (Z.gtb_spec hour 24),
    (Z.ltb_spec minute 0), (Z.gtb_spec minute 59),
    (Z.ltb_spec second 0), (Z.gtb_spec second 59);
    cbn [orb]; try lia.
  destruct (Z.eqb_spec hour 24), (Z.eqb_spec minute 0),
    (Z.eqb_spec second 0); cbn [andb orb negb]; try reflexivity; lia.
Qed.

Lemma parseTimeString_accepts :
  0 <= hour <= 24 -> 0 <= minute <= 59 -> 0 <= second <= 59 ->
  (hour = 24 -> minute = 0 /\ second = 0) ->
  parseTimeString s = (hour * 3600 + minute * 60 + second, None).
Proof.
  intros Hh Hm Hs H24. rewrite parseTimeString_scanned.
  unfold hoursInDay, secondsInDay.
  destruct (Z.ltb_spec hour 0), (Z.gtb_spec hour 24),
    (Z.ltb_spec minute 0), (Z.gtb_spec minute 59),
    (Z.ltb_spec second 0), (Z.gtb_spec second 59);
    cbn [orb]; try lia.
  assert (Hnot : (hour =? 24) && (negb (minute =? 0) || negb (second =? 0))
                 = false).
  { destruct (Z.eqb_spec hour 24), (Z.eqb_spec minute 0),
      (Z.eqb_spec second 0); cbn [andb orb negb]; try reflexivity; lia. }
  rewrite Hnot. cbv zeta.
  assert (Htot : add (add (mul hour 3600) (mul minute 60)) second
                 = hour * 3600 + minute * 60 + second).
  { unfold add, mul.
    rewrite (wrap_id (hour * 3600)) by (unfold is_int, min_int, max_int; lia).
    rewrite (wrap_id (minute * 60)) by (unfold is_int, min_int, max_int; lia).
    rewrite (wrap_id (hour * 3600 + minute * 60))
      by (unfold is_int, min_int, max_int; lia).
    apply wrap_id. unfold is_int, min_int, max_int. lia. }
  rewrite Htot.
  destruct (Z.gtb_spec (hour * 3600 + minute * 60 + second) 86400);
    [lia | reflexivity].
Qed.

End ScannedFields.

(** C3, as amended.  On a string that [parseSeconds] refuses and that scans
    as three fields of an eight-byte [HH:MM:SS] text, a component out of
    range makes [parseTimeString] fail with [ErrInvalidTimeComponent], and
    hour 24 with a non-zero minute or second makes it fail with
    [ErrEndOfDayExceeded]; [Parse] drops that error and fails with its own,
    whose root cause is [ErrInvalidFormat] and which matches neither of the
    two. *)
Theorem Parse_collapses_component_errors
  (s : string) (hour minute second : int) :
  cause (snd (parseSeconds s)) <> None ->
  String.length s = 8%nat ->
  fmt.Sscanf s format_hms = ([hour; minute; second], None) ->
  let e := Error "Parse" (AnyString s) (Sentinel ErrInvalidFormat) in
  (hour < 0 \/ 24 < hour \/ minute < 0 \/ 59 < minute
   \/ second < 0 \/ 59 < second ->
   cause (snd (parseTimeString s)) = Some ErrInvalidTimeComponent
   /\ Parse s = (0, Some e))
  /\ (hour = 24 -> 0 <= minute <= 59 -> 0 <= second <= 59 ->
      minute <> 0 \/ second <> 0 ->
      cause (snd (parseTimeString s)) = Some ErrEndOfDayExceeded
      /\ Parse s = (0, Some e))
  /\ root_cause e = ErrInvalidFormat
  /\ Is e ErrInvalidFormat = true
  /\ Is e ErrInvalidTimeComponent = false
  /\ Is e ErrEndOfDayExceeded = false.
Proof.
  intros Hsec Hlen Hscan e.
  assert (Hne : s <> EmptyString) by (intros ->; discriminate Hlen).
  destruct (parseSeconds s) as [sec1 [e1|]] eqn:E1;
    [|exfalso; apply Hsec; reflexivity].
  split; [|split; [|repeat split]].
  - intros Hout.
    pose proof (parseTimeString_component s hour minute second Hlen Hscan Hout)
      as E2.
    split; [rewrite E2; reflexivity|].
    exact (Parse_after_both_fail s _ _ _ _ Hne E1 E2).
  - intros Hh Hm Hs Hnz.
    pose proof (parseTimeString_exceeded s hour minute second Hlen Hscan
                  Hh Hm Hs Hnz) as E2.
    split; [rewrite E2; reflexivity|].
    exact (Parse_after_both_fail s _ _ _ _ Hne E1 E2).
Qed.

Lemma Parse_collapses_component_errors_witness :
  cause (snd (parseSeconds "25:00:00")) <> None
  /\ String.length "25:00:00" = 8%nat
  /\ fmt.Sscanf "25:00:00" format_hms = ([25; 0; 0], None)
  /\ cause (snd (parseTimeString "25:00:00")) = Some ErrInvalidTimeComponent
  /\ Parse "25:00:00"
     = (0, Some (Error "Parse" (AnyString "25:00:00")
                   (Sentinel ErrInvalidFormat))).
Proof.
  assert (H1 : cause (snd (parseSeconds "25:00:00")) <> None)
    by (vm_compute; discriminate).
  assert (H2 : String.length "25:00:00" = 8%nat) by reflexivity.
  assert (H3 : fmt.Sscanf "25:00:00" format_hms = ([25; 0; 0], None))
    by reflexivity.
  split; [exact H1|]. split; [exact H2|]. split; [exact H3|].
  destruct (Parse_collapses_component_errors "25:00:00" 25 0 0 H1 H2 H3)
    as (Hcomp & _).
  apply Hcomp. lia.
Defined.

(** [Parse] answers [ErrInvalidFormat], not the component errors, on the two
    texts. *)
Lemma Parse_component_error_is_InvalidFormat :
  Parse "25:00:00"
  = (0, Some (Error "Parse" (AnyString "25:00:00") (Sentinel ErrInvalidFormat)))
  /\ (forall e, snd (Parse "25:00:00") = Some e ->
      Is e ErrInvalidTimeComponent = false
      /\ root_cause e <> ErrInvalidTimeComponent)
  /\ Parse "24:00:01"
     = (0, Some (Error "Parse" (AnyString "24:00:01")
                   (Sentinel ErrInvalidFormat)))
  /\ (forall e, snd (Parse "24:00:01") = Some e ->
      Is e ErrEndOfDayExceeded = false
      /\ root_cause e <> ErrEndOfDayExceeded).
Proof.
  split; [reflexivity|]. split.
  - intros e H. vm_compute in H. inversion H. split; [reflexivity|].
    discriminate.
  - split; [reflexivity|].
    intros e H. vm_compute in H. inversion H. split; [reflexivity|].
    discriminate.
Qed.

(** C8.  Two texts of eight bytes whose fields are not two digits wide are
    accepted as times: the scan skips the leading space and does not look at
    what follows the third field.  The same fields without padding are
    refused, by the length test alone. *)
Theorem Parse_accepts_padded_fields :
  Parse " 1:02:03" = (3723, None)
  /\ Parse "1:2:3   " = (3723, None)
  /\ parseTimeString " 1:02:03" = (3723, None)
  /\ parseTimeString "1:2:3   " = (3723, None)
  /\ cause (snd (parseTimeString "1:2:3")) = Some ErrInvalidFormat.
Proof. repeat split. Qed.

(** ** String and back *)

Ltac digit_cases x :=
  let H := fresh "H" in
  assert (H : x = 0 \/ x = 1 \/ x = 2 \/ x = 3 \/ x = 4 \/ x = 5
              \/ x = 6 \/ x = 7 \/ x = 8 \/ x = 9) by lia;
  destruct H as [-> | [-> | [-> | [-> | [-> | [-> | [-> | [-> | [-> | ->]]]]]]]]].

Lemma Sprintf_02d_two n : 0 <= n <= 99 -> fmt.Sprintf_02d n = two n.
Proof.
  intros Hn. unfold two.
  assert (Hx : 0 <= n / 10 <= 9) by (Z.to_euclidean_division_equations; lia).
  assert (Hy : 0 <= n mod 10 <= 9) by (Z.to_euclidean_division_equations; lia).
  rewrite (Z.div_mod n 10) at 1 by lia.
  generalize dependent (n mod 10). generalize dependent (n / 10).
  intros x Hx y Hy.
  digit_cases x; digit_cases y; reflexivity.
Qed.

Lemma scan_field_colon x y rest :
  0 <= x <= 9 -> 0 <= y <= 9 ->
  fmt.bind fmt.SkipSpace (fun _ => fmt.scanInt)
    (String.String (dig x)
       (String.String (dig y) (String.String ":"%char rest)))
  = inr (10 * x + y, String.String ":"%char rest).
Proof.
  intros Hx Hy. digit_cases x; digit_cases y; reflexivity.
Qed.

Lemma scan_field_end x y :
  0 <= x <= 9 -> 0 <= y <= 9 ->
  fmt.bind fmt.SkipSpace (fun _ => fmt.scanInt)
    (String.String (dig x) (String.String (dig y) EmptyString))
  = inr (10 * x + y, EmptyString).
Proof.
  intros Hx Hy. digit_cases x; digit_cases y; reflexivity.
Qed.

Lemma Atoi_field_colon x y rest :
  0 <= x <= 9 -> 0 <= y <= 9 ->
  strconv.Atoi (String.String (dig x) (String.String (dig y) (String.String ":"%char rest))) = None.
Proof.
  intros Hx Hy. digit_cases x; digit_cases y; reflexivity.
Qed.

Section CanonicalText.

Variables hour minute second : int.
Hypothesis Hh : 0 <= hour <= 99.
Hypothesis Hm : 0 <= minute <= 99.
Hypothesis Hs : 0 <= second <= 99.

Let tens_units n : 0 <= n <= 99 ->
  0 <= n / 10 <= 9 /\ 0 <= n mod 10 <= 9 /\ 10 * (n / 10) + n mod 10 = n.
Proof. intros H. Z.to_euclidean_division_equations. lia. Qed.

Lemma fmt_hms_text :
  fmt_hms hour minute second =
  String.String (dig (hour / 10)) (String.String (dig (hour mod 10)) (String.String ":"%char
  (String.String (dig (minute / 10)) (String.String (dig (minute mod 10)) (String.String ":"%char
  (String.String (dig (second / 10)) (String.String (dig (second mod 10))
  EmptyString))))))).
Proof.
  unfold fmt_hms. rewrite !Sprintf_02d_two by assumption. reflexivity.
Qed.

Lemma fmt_hms_length : String.length (fmt_hms hour minute second) = 8%nat.
Proof. rewrite fmt_hms_text. reflexivity. Qed.

Lemma fmt_hms_not_seconds :
  strconv.Atoi (fmt_hms hour minute second) = None.
Proof.
  rewrite fmt_hms_text.
  destruct (tens_units hour Hh) as (H1 & H2 & _).
  apply Atoi_field_colon; assumption.
Qed.

Lemma fmt_hms_scans :
  fmt.Sscanf (fmt_hms hour minute second) format_hms
  = ([hour; minute; second], None).
Proof.
  rewrite fmt_hms_text. unfold fmt.Sscanf, format_hms.
  destruct (tens_units hour Hh) as (H1 & H2 & H3).
  destruct (tens_units minute Hm) as (M1 & M2 & M3).
  destruct (tens_units second Hs) as (S1 & S2 & S3).
  cbn [fmt.doScanf].
  rewrite (scan_field_colon _ _ _ H1 H2), H3.
  rewrite Ascii.eqb_refl.
  rewrite (scan_field_colon _ _ _ M1 M2), M3.
  rewrite Ascii.eqb_refl.
  rewrite (scan_field_end _ _ S1 S2), S3.
  reflexivity.
Qed.

End CanonicalText.

Lemma Clock_in_day d :
  0 <= d < 86400 -> Clock d = (d / 3600, (d mod 3600) / 60, d mod 60).
Proof.
  intros Hd. unfold Clock. rewrite EndOfDay_eq.
  destruct (Z.eqb_spec d 86400); [lia|].
  unfold int_of, quot, rem.
  rewrite !Z.rem_mod_nonneg, !Z.quot_div_nonneg by
    (try apply Z.mod_pos_bound; lia).
  rewrite !wrap_id; [reflexivity| |];
    unfold is_int, min_int, max_int;
    Z.to_euclidean_division_equations; lia.
Qed.

(** The canonical text of three components in range parses to the count of
    seconds they stand for. *)
Lemma Parse_canonical hour minute second :
  0 <= hour <= 24 -> 0 <= minute <= 59 -> 0 <= second <= 59 ->
  (hour = 24 -> minute = 0 /\ second = 0) ->
  Parse (fmt_hms hour minute second)
  = (hour * 3600 + minute * 60 + second, None).
Proof.
  intros Hh Hm Hs H24.
  assert (Hh' : 0 <= hour <= 99) by lia.
  assert (Hm' : 0 <= minute <= 99) by lia.
  assert (Hs' : 0 <= second <= 99) by lia.
  unfold Parse.
  assert (Hne : String.eqb (fmt_hms hour minute second) EmptyString = false).
  { rewrite (fmt_hms_text _ _ _ Hh' Hm' Hs'). reflexivity. }
  rewrite Hne. unfold parseSeconds.
  rewrite (fmt_hms_not_seconds _ _ _ Hh' Hm' Hs'). cbn [errorf As_Error].
  rewrite (parseTimeString_accepts _ hour minute second
             (fmt_hms_length _ _ _ Hh' Hm' Hs')
             (fmt_hms_scans _ _ _ Hh' Hm' Hs') Hh Hm Hs H24).
  unfold of_int. rewrite to_uint32_id; [reflexivity|].
  unfold is_uint32. lia.
Qed.

(** C9.  For a valid [d], the text [String d] given to [UnmarshalText] sets
    the receiver to [d] and returns no error. *)
Theorem String_UnmarshalText_roundtrip (d recv : Daytime) :
  is_uint32 d -> Valid d = true ->
  UnmarshalText recv (daytime.String d) = (d, None).
Proof.
  intros Hd Hv. apply Valid_true in Hv as Hle. unfold is_uint32 in Hd.
  unfold daytime.String. rewrite Hv. cbn [negb]. rewrite EndOfDay_eq.
  destruct (Z.eqb_spec d 86400) as [-> | Hne]; [reflexivity|].
  rewrite Clock_in_day by lia.
  unfold UnmarshalText. rewrite Parse_canonical.
  - f_equal. Z.to_euclidean_division_equations. lia.
  - Z.to_euclidean_division_equations. lia.
  - Z.to_euclidean_division_equations. lia.
  - Z.to_euclidean_division_equations. lia.
  - Z.to_euclidean_division_equations. lia.
Qed.

Lemma String_UnmarshalText_roundtrip_witness :
  is_uint32 45015 /\ Valid 45015 = true
  /\ daytime.String 45015 = "12:30:15"%string
  /\ UnmarshalText StartOfDay (daytime.String 45015) = (45015, None).
Proof.
  assert (Hd : is_uint32 45015) by (unfold is_uint32; lia).
  assert (Hv : Valid 45015 = true) by reflexivity.
  split; [exact Hd|]. split; [exact Hv|]. split; [reflexivity|].
  exact (String_UnmarshalText_roundtrip 45015 StartOfDay Hd Hv).
Defined.

(** * Further properties of the package *)

(** ** New, Must and Clock *)

Lemma hms_total_exact hour minute second :
  0 <= hour <= 24 -> 0 <= minute <= 59 -> 0 <= second <= 59 ->
  add (add (mul hour 3600) (mul minute 60)) second
  = hour * 3600 + minute * 60 + second.
Proof.
  intros Hh Hm Hs. unfold add, mul.
  rewrite (wrap_id (hour * 3600)) by (unfold is_int, min_int, max_int; lia).
  rewrite (wrap_id (minute * 60)) by (unfold is_int, min_int, max_int; lia).
  rewrite (wrap_id (hour * 3600 + minute * 60))
    by (unfold is_int, min_int, max_int; lia).
  apply wrap_id. unfold is_int, min_int, max_int. lia.
Qed.

Lemma New_accepts hour minute second :
  clock_ok hour minute second ->
  New hour minute second = (hour * 3600 + minute * 60 + second, None).
Proof.
  intros (Hh & Hm & Hs & H24). unfold New, hoursInDay, secondsInDay.
  destruct (Z.ltb_spec hour 0), (Z.gtb_spec hour 24),
    (Z.ltb_spec minute 0), (Z.gtb_spec minute 59),
    (Z.ltb_spec second 0), (Z.gtb_spec second 59);
    cbn [orb]; try lia.
  assert (Hnot : (hour =? 24) && (negb (minute =? 0) || negb (second =? 0))
                 = false).
  { destruct (Z.eqb_spec hour 24), (Z.eqb_spec minute 0),
      (Z.eqb_spec second 0); cbn [andb orb negb]; try reflexivity; lia. }
  rewrite Hnot. cbv zeta. rewrite (hms_total_exact _ _ _ Hh Hm Hs).
  destruct (Z.gtb_spec (hour * 3600 + minute * 60 + second) 86400); [lia|].
  unfold of_int. rewrite to_uint32_id; [reflexivity|].
  unfold is_uint32. lia.
Qed.

Lemma New_out_of_range hour minute second :
  hour < 0 \/ 24 < hour \/ minute < 0 \/ 59 < minute
  \/ second < 0 \/ 59 < second ->
  New hour minute second
  = (0, Some (Error "New" (AnyString (fmt_hms hour minute second))
                (Sentinel ErrInvalidTimeComponent))).
Proof.
  intros H. unfold New, hoursInDay.
  destruct (Z.ltb_spec hour 0), (Z.gtb_spec hour 24),
    (Z.ltb_spec minute 0), (Z.gtb_spec minute 59),
    (Z.ltb_spec second 0), (Z.gtb_spec second 59);
    cbn [orb]; try reflexivity; lia.
Qed.

Lemma New_exceeded hour minute second :
  hour = 24 -> 0 <= minute <= 59 -> 0 <= second <= 59 ->
  minute <> 0 \/ second <> 0 ->
  New hour minute second
  = (0, Some (Error "New" (AnyString (fmt_hms hour minute second))
                (Sentinel ErrEndOfDayExceeded))).
Proof.
  intros Hh Hm Hs Hnz. unfold New, hoursInDay.
  destruct (Z.ltb_spec hour 0), (Z.gtb_spec hour 24),
    (Z.ltb_spec minute 0), (Z.gtb_spec minute 59),
    (Z.ltb_spec second 0), (Z.gtb_spec second 59);
    cbn [orb]; try lia.
  destruct (Z.eqb_spec hour 24), (Z.eqb_spec minute 0),
    (Z.eqb_spec second 0); cbn [andb orb negb]; try reflexivity; lia.
Qed.

(** X1.  [New] succeeds exactly on the components it documents, with the
    count of seconds they stand for, which is a valid daytime; a component
    out of range gives [ErrInvalidTimeComponent], hour 24 with a non-zero
    minute or second gives [ErrEndOfDayExceeded], and in both cases the
    daytime returned is zero.  [ErrValueOutOfRange] never comes out of
    [New]. *)
Theorem New_characterization (hour minute second : int) :
  (clock_ok hour minute second ->
   New hour minute second = (hour * 3600 + minute * 60 + second, None)
   /\ Valid (fst (New hour minute second)) = true)
  /\ (hour < 0 \/ 24 < hour \/ minute < 0 \/ 59 < minute
      \/ second < 0 \/ 59 < second ->
      fst (New hour minute second) = 0
      /\ cause (snd (New hour minute second)) = Some ErrInvalidTimeComponent)
  /\ (hour = 24 -> 0 <= minute <= 59 -> 0 <= second <= 59 ->
      minute <> 0 \/ second <> 0 ->
      fst (New hour minute second) = 0
      /\ cause (snd (New hour minute second)) = Some ErrEndOfDayExceeded)
  /\ (snd (New hour minute second) = None <-> clock_ok hour minute second).
Proof.
  pose proof (New_out_of_range hour minute second) as Hout.
  pose proof (New_exceeded hour minute second) as Hexc.
  split; [|split; [|split; [|split]]].
  - intros Hok. rewrite (New_accepts _ _ _ Hok). split; [reflexivity|].
    cbn [fst]. apply Valid_true. unfold clock_ok in Hok. lia.
  - intros H. rewrite (Hout H). split; reflexivity.
  - intros Hh Hm Hs Hnz. rewrite (Hexc Hh Hm Hs Hnz). split; reflexivity.
  - intros Hnone. unfold clock_ok.
    destruct (Z.lt_ge_cases hour 0) as [H|H0];
      [rewrite Hout in Hnone by lia; discriminate|].
    destruct (Z.lt_ge_cases 24 hour) as [H|H1];
      [rewrite Hout in Hnone by lia; discriminate|].
    destruct (Z.lt_ge_cases minute 0) as [H|H2];
      [rewrite Hout in Hnone by lia; discriminate|].
    destruct (Z.lt_ge_cases 59 minute) as [H|H3];
      [rewrite Hout in Hnone by lia; discriminate|].
    destruct (Z.lt_ge_cases second 0) as [H|H4];
      [rewrite Hout in Hnone by lia; discriminate|].
    destruct (Z.lt_ge_cases 59 second) as [H|H5];
      [rewrite Hout in Hnone by lia; discriminate|].
    repeat split; try lia.
    + destruct (Z.eq_dec minute 0) as [E|E]; [exact E|].
      rewrite Hexc in Hnone by lia. discriminate.
    + destruct (Z.eq_dec second 0) as [E|E]; [exact E|].
      rewrite Hexc in Hnone by lia. discriminate.
  - intros Hok. rewrite (New_accepts _ _ _ Hok). reflexivity.
Qed.

Lemma Clock_valid d :
  0 <= d <= 86400 ->
  Clock d
  = if d =? 86400 then (24, 0, 0)
    else (d / 3600, (d mod 3600) / 60, d mod 60).
Proof.
  intros Hd. destruct (Z.eqb_spec d 86400) as [-> | Hne]; [reflexivity|].
  apply Clock_in_day. lia.
Qed.

(** X2.  The clock of a valid daytime has hour in [0, 24], minute and second
    in [0, 59], and minute and second zero at hour 24; it stands for the
    same count of seconds, and [New] and [Must] rebuild the daytime from
    it. *)
Theorem Clock_New_roundtrip (d : Daytime) :
  is_uint32 d -> Valid d = true ->
  let '(hour, minute, second) := Clock d in
  clock_ok hour minute second
  /\ hour * 3600 + minute * 60 + second = int_of d
  /\ Hour d = hour /\ Minute d = minute /\ Second d = second
  /\ New hour minute second = (d, None)
  /\ Must hour minute second = Returns d.
Proof.
  intros Hd Hv. apply Valid_true in Hv. unfold is_uint32 in Hd.
  unfold Hour, Minute, Second, Must.
  rewrite Clock_valid by lia.
  destruct (Z.eqb_spec d 86400) as [-> | Hne].
  - unfold clock_ok. repeat split; try reflexivity; lia.
  - assert (Hok : clock_ok (d / 3600) ((d mod 3600) / 60) (d mod 60)).
    { unfold clock_ok.
      repeat split; intros; Z.to_euclidean_division_equations; lia. }
    assert (Hsum : d / 3600 * 3600 + (d mod 3600) / 60 * 60 + d mod 60 = d).
    { Z.to_euclidean_division_equations; lia. }
    rewrite (New_accepts _ _ _ Hok), Hsum.
    split; [exact Hok|]. split; [reflexivity|]. repeat split.
Qed.

Lemma Clock_New_roundtrip_witness :
  is_uint32 45015 /\ Valid 45015 = true
  /\ Clock 45015 = (12, 30, 15)
  /\ New 12 30 15 = (45015, None).
Proof.
  assert (Hd : is_uint32 45015) by (unfold is_uint32; lia).
  assert (Hv : Valid 45015 = true) by reflexivity.
  split; [exact Hd|]. split; [exact Hv|]. split; [reflexivity|].
  pose proof (Clock_New_roundtrip 45015 Hd Hv) as H.
  change (Clock 45015) with (12, 30, 15) in H. cbv beta iota in H.
  exact (proj1 (proj2 (proj2 (proj2 (proj2 (proj2 H)))))).
Defined.

Lemma Clock_of_components hour minute second :
  clock_ok hour minute second ->
  Clock (hour * 3600 + minute * 60 + second) = (hour, minute, second).
Proof.
  intros (Hh & Hm & Hs & H24).
  rewrite Clock_valid by lia.
  destruct (Z.eqb_spec (hour * 3600 + minute * 60 + second) 86400) as [E|E].
  - assert (hour = 24) by lia. destruct (H24 H) as [-> ->]. subst hour.
    reflexivity.
  - assert (Hlt : hour < 24) by (destruct (Z.eq_dec hour 24); lia).
    f_equal; [f_equal|]; Z.to_euclidean_division_equations; lia.
Qed.

(** X3.  For components [New] accepts, the clock of the daytime it returns
    is these components again. *)
Theorem New_Clock_roundtrip (hour minute second : int) :
  clock_ok hour minute second ->
  Clock (fst (New hour minute second)) = (hour, minute, second).
Proof.
  intros Hok. rewrite (New_accepts _ _ _ Hok). cbn [fst].
  apply Clock_of_components, Hok.
Qed.

Lemma New_Clock_roundtrip_witness :
  clock_ok 24 0 0 /\ Clock (fst (New 24 0 0)) = (24, 0, 0).
Proof.
  assert (Hok : clock_ok 24 0 0) by (unfold clock_ok; lia).
  split; [exact Hok|]. exact (New_Clock_roundtrip 24 0 0 Hok).
Defined.

(** ** The ordering on all values *)

Lemma Before_is_rank a b :
  is_uint32 a -> is_uint32 b -> Before a b = (rank a <? rank b).
Proof.
  unfold Before, rank, is_uint32. rewrite EndOfDay_eq. intros Ha Hb.
  destruct (Z.eqb_spec a 86400), (Z.eqb_spec b 86400); symmetry.
  - apply Z.ltb_ge. lia.
  - apply Z.ltb_ge. lia.
  - apply Z.ltb_lt. lia.
  - reflexivity.
Qed.

Lemma rank_inj a b :
  is_uint32 a -> is_uint32 b -> rank a = rank b -> a = b.
Proof.
  unfold rank, is_uint32. intros Ha Hb.
  destruct (Z.eqb_spec a 86400), (Z.eqb_spec b 86400); lia.
Qed.

(** X4.  On all [uint32] values, valid or not, [Before] is a strict total
    order: irreflexive, asymmetric, transitive and total on distinct values;
    [EndOfDay] is its greatest element, so every invalid value, although a
    larger integer, is before [EndOfDay]. *)
Theorem Before_strict_total_order (a b c : Daytime) :
  is_uint32 a -> is_uint32 b -> is_uint32 c ->
  Before a a = false
  /\ (Before a b = true -> Before b a = false)
  /\ (Before a b = true -> Before b c = true -> Before a c = true)
  /\ (a <> b -> Before a b = true \/ Before b a = true)
  /\ Before EndOfDay a = false
  /\ (a <> EndOfDay -> Before a EndOfDay = true).
Proof.
  intros Ha Hb Hc.
  assert (He : is_uint32 EndOfDay) by (rewrite EndOfDay_eq; unfold is_uint32; lia).
  rewrite !Before_is_rank by assumption.
  repeat split.
  - apply Z.ltb_irrefl.
  - intros H. apply Z.ltb_lt in H. apply Z.ltb_ge. lia.
  - intros H1 H2. apply Z.ltb_lt in H1, H2. apply Z.ltb_lt. lia.
  - intros Hne.
    assert (rank a <> rank b) by (intros E; apply Hne, rank_inj; assumption).
    destruct (Z.lt_ge_cases (rank a) (rank b)).
    + left. apply Z.ltb_lt. assumption.
    + right. apply Z.ltb_lt. lia.
  - apply Z.ltb_ge. unfold rank, is_uint32 in *. rewrite EndOfDay_eq.
    destruct (Z.eqb_spec a 86400); cbn; lia.
  - intros Hne. apply Z.ltb_lt. unfold rank, is_uint32 in *.
    rewrite EndOfDay_eq in *.
    destruct (Z.eqb_spec a 86400); cbn; lia.
Qed.

Lemma Before_strict_total_order_witness :
  is_uint32 90000 /\ is_uint32 86400 /\ is_uint32 100
  /\ Before 90000 EndOfDay = true /\ Before EndOfDay 90000 = false.
Proof.
  assert (Ha : is_uint32 90000) by (unfold is_uint32; lia).
  assert (Hb : is_uint32 86400) by (unfold is_uint32; lia).
  assert (Hc : is_uint32 100) by (unfold is_uint32; lia).
  split; [exact Ha|]. split; [exact Hb|]. split; [exact Hc|].
  destruct (Before_strict_total_order 90000 86400 100 Ha Hb Hc)
    as (_ & _ & _ & _ & Hmax & Hlast).
  split; [apply Hlast; discriminate | exact Hmax].
Defined.

(** X5.  [Compare] answers 0 exactly on equal values, -1 exactly when the
    receiver is before the other and 1 exactly when it is after; swapping
    the operands negates the answer. *)
Theorem Compare_trichotomy (a b : Daytime) :
  is_uint32 a -> is_uint32 b ->
  (Compare a b = 0 <-> a = b)
  /\ (Compare a b = -1 <-> Before a b = true)
  /\ (Compare a b = 1 <-> After a b = true)
  /\ Compare a b = - Compare b a
  /\ (Compare a b = -1 \/ Compare a b = 0 \/ Compare a b = 1).
Proof.
  intros Ha Hb. unfold Compare, After.
  rewrite !Before_is_rank by assumption.
  pose proof (rank_inj a b Ha Hb) as Hinj.
  destruct (Z.eqb_spec a b) as [E | E], (Z.eqb_spec b a) as [E' | E'];
    try (exfalso; congruence).
  - subst b. rewrite Z.ltb_irrefl. repeat split; intros; try lia; try discriminate.
  - destruct (Z.ltb_spec (rank a) (rank b)), (Z.ltb_spec (rank b) (rank a));
      repeat split; intros; try lia; try discriminate; try reflexivity;
      try congruence.
Qed.

Lemma Compare_trichotomy_witness :
  is_uint32 3600 /\ is_uint32 86400 /\ Compare 3600 86400 = - Compare 86400 3600.
Proof.
  assert (Ha : is_uint32 3600) by (unfold is_uint32; lia).
  assert (Hb : is_uint32 86400) by (unfold is_uint32; lia).
  split; [exact Ha|]. split; [exact Hb|].
  destruct (Compare_trichotomy 3600 86400 Ha Hb) as (_ & _ & _ & H & _).
  exact H.
Defined.

(** X6.  On valid values [Between] is membership in the closed interval
    from [start] to [end] when [start] is not after [end], and in its
    wraparound complement-closure otherwise; a single-point interval holds
    that point only. *)
Theorem Between_valid_characterization (d start end_ : Daytime) :
  is_uint32 d -> is_uint32 start -> is_uint32 end_ ->
  Valid d = true -> Valid start = true -> Valid end_ = true ->
  (Between d start end_ = true <->
   (start <= end_ /\ start <= d <= end_)
   \/ (end_ < start /\ (start <= d \/ d <= end_)))
  /\ (start = end_ -> (Between d start end_ = true <-> d = start)).
Proof.
  intros _ _ _ Hd Hs He. unfold Between. rewrite Hd, Hs, He. cbn [negb orb].
  apply Valid_true in Hd, Hs, He. unfold After.
  rewrite !Before_valid by assumption.
  destruct (Z.eqb_spec start end_), (Z.eqb_spec d start),
    (Z.ltb_spec start end_), (Z.ltb_spec d start), (Z.ltb_spec end_ d);
    cbn [negb andb orb]; split; split; intros;
    try reflexivity; try discriminate; try lia.
Qed.

Lemma Between_valid_characterization_witness :
  is_uint32 43200 /\ is_uint32 3600 /\ is_uint32 82800
  /\ Valid 43200 = true /\ Valid 3600 = true /\ Valid 82800 = true
  /\ Between 43200 3600 82800 = true.
Proof.
  assert (H1 : is_uint32 43200) by (unfold is_uint32; lia).
  assert (H2 : is_uint32 3600) by (unfold is_uint32; lia).
  assert (H3 : is_uint32 82800) by (unfold is_uint32; lia).
  assert (V1 : Valid 43200 = true) by reflexivity.
  assert (V2 : Valid 3600 = true) by reflexivity.
  assert (V3 : Valid 82800 = true) by reflexivity.
  split; [exact H1|]. split; [exact H2|]. split; [exact H3|].
  split; [exact V1|]. split; [exact V2|]. split; [exact V3|].
  apply (proj1 (Between_valid_characterization 43200 3600 82800
                  H1 H2 H3 V1 V2 V3)).
  left. lia.
Defined.

(** ** Arithmetic keeps the count of seconds *)

Lemma day_normal_conserves T :
  let '(d', k) := day_normal T in
  0 <= d' <= 86400 /\ int_of d' + 86400 * k = T.
Proof.
  unfold day_normal, int_of.
  destruct (Z.eqb_spec T 86400) as [-> | _].
  - rewrite EndOfDay_eq. lia.
  - Z.to_euclidean_division_equations. lia.
Qed.

(** X7.  [Add] on a valid daytime returns a valid daytime, and when the sum
    does not overflow the seconds are conserved: the daytime returned plus
    86400 times the days crossed is [int(d) + seconds]. *)
Theorem Add_conserves_seconds (d : Daytime) (s : int) :
  is_uint32 d -> Valid d = true -> is_int s ->
  let '(d', k) := Add d s in
  Valid d' = true /\ is_uint32 d'
  /\ (int_of d + s <= max_int -> int_of d' + 86400 * k = int_of d + s).
Proof.
  intros Hd Hv Hs. rewrite (Add_valid d s Hv).
  pose proof (day_normal_conserves (add (int_of d) s)) as H.
  destruct (day_normal (add (int_of d) s)) as [d' k].
  destruct H as [Hb Hsum]. split; [apply Valid_true; lia|].
  split; [unfold is_uint32; lia|].
  intros Hle. rewrite Hsum. apply add_exact.
  apply Valid_true in Hv.
  unfold is_uint32, is_int, min_int, max_int, int_of in *. lia.
Qed.

Lemma Add_conserves_seconds_witness :
  is_uint32 82800 /\ Valid 82800 = true /\ is_int 7200
  /\ Add 82800 7200 = (3600, 1)
  /\ int_of 3600 + 86400 * 1 = int_of 82800 + 7200.
Proof.
  assert (Hd : is_uint32 82800) by (unfold is_uint32; lia).
  assert (Hv : Valid 82800 = true) by reflexivity.
  assert (Hs : is_int 7200) by (unfold is_int, min_int, max_int; lia).
  split; [exact Hd|]. split; [exact Hv|]. split; [exact Hs|].
  split; [reflexivity|].
  pose proof (Add_conserves_seconds 82800 7200 Hd Hv Hs) as H.
  change (Add 82800 7200) with (3600, 1) in H. cbv beta iota in H.
  apply H. unfold int_of, max_int. lia.
Defined.

(** X8.  [Mul] on a valid daytime is [(EndOfDay, 0)] exactly when the
    product, as the code computes it, is 86400, and otherwise its floored
    remainder and quotient by 86400; the result is a valid daytime and, when
    the product does not overflow, the daytime returned plus 86400 times the
    days crossed is [int(d) * factor]. *)
Theorem Mul_floored_normal_form (d : Daytime) (f : int) :
  is_uint32 d -> Valid d = true -> is_int f ->
  let T := mul (int_of d) f in
  (Mul d f = (EndOfDay, 0) <-> T = 86400)
  /\ (T <> 86400 -> Mul d f = (T mod 86400, T / 86400))
  /\ Valid (fst (Mul d f)) = true
  /\ (is_int (int_of d * f) ->
      T = int_of d * f
      /\ int_of (fst (Mul d f)) + 86400 * snd (Mul d f) = int_of d * f).
Proof.
  intros Hd Hv Hf T. rewrite (Mul_valid d f Hv). fold T.
  pose proof (day_normal_conserves T) as Hc.
  pose proof (day_normal_valid T) as Hval.
  unfold day_normal in *.
  destruct (Z.eqb_spec T 86400) as [E | E].
  - split; [tauto|]. split; [contradiction|]. split; [exact Hval|].
    intros Hi. assert (HT : T = int_of d * f) by (apply wrap_id, Hi).
    split; [exact HT|]. cbn [fst snd]. rewrite <- HT. apply Hc.
  - split.
    + split; [|contradiction]. intros H. inversion H as [[Hr Hq]].
      pose proof (floor_day_bounds T). rewrite EndOfDay_eq in Hr. lia.
    + split; [reflexivity|]. split; [exact Hval|].
      intros Hi. assert (HT : T = int_of d * f) by (apply wrap_id, Hi).
      split; [exact HT|]. cbn [fst snd]. rewrite <- HT. apply Hc.
Qed.

Lemma Mul_floored_normal_form_witness :
  is_uint32 21600 /\ Valid 21600 = true /\ is_int (-5)
  /\ Mul 21600 (-5) = (64800, -2).
Proof.
  assert (Hd : is_uint32 21600) by (unfold is_uint32; lia).
  assert (Hv : Valid 21600 = true) by reflexivity.
  assert (Hf : is_int (-5)) by (unfold is_int, min_int, max_int; lia).
  split; [exact Hd|]. split; [exact Hv|]. split; [exact Hf|].
  destruct (Mul_floored_normal_form 21600 (-5) Hd Hv Hf) as (_ & H & _).
  apply H. vm_compute. discriminate.
Defined.

(** X9.  Neutral operands: adding or subtracting zero seconds and
    multiplying by one return a valid daytime unchanged with no day crossed,
    [EndOfDay] included; multiplying by zero gives [StartOfDay]. *)
Theorem arithmetic_neutral (d : Daytime) :
  is_uint32 d -> Valid d = true ->
  Add d 0 = (d, 0) /\ Sub d 0 = (d, 0)
  /\ Mul d 1 = (d, 0) /\ Mul d 0 = (StartOfDay, 0).
Proof.
  intros Hd Hv. apply Valid_true in Hv as Hle. unfold is_uint32 in Hd.
  assert (Hn : day_normal d = (d, 0)).
  { unfold day_normal. destruct (Z.eqb_spec d 86400) as [-> | Hne].
    - reflexivity.
    - f_equal; Z.to_euclidean_division_equations; lia. }
  assert (Hi : is_int d) by (unfold is_int, min_int, max_int; lia).
  unfold Sub. change (neg 0) with 0.
  rewrite (Add_valid d 0 Hv), !(Mul_valid d _ Hv). unfold add, mul, int_of.
  rewrite Z.add_0_r, Z.mul_1_r, Z.mul_0_r, (wrap_id d Hi).
  repeat split; assumption || reflexivity.
Qed.

Lemma arithmetic_neutral_witness :
  is_uint32 EndOfDay /\ Valid EndOfDay = true
  /\ Add EndOfDay 0 = (EndOfDay, 0) /\ Mul EndOfDay 1 = (EndOfDay, 0).
Proof.
  assert (Hd : is_uint32 EndOfDay) by (vm_compute; split; [discriminate | reflexivity]).
  assert (Hv : Valid EndOfDay = true) by reflexivity.
  split; [exact Hd|]. split; [exact Hv|].
  destruct (arithmetic_neutral EndOfDay Hd Hv) as (HA & _ & HM & _).
  split; [exact HA | exact HM].
Defined.

(** X10.  [Diff] conserves the difference: seconds plus 86400 times days is
    [int(d) - int(other)]; swapping the operands negates the days and
    complements the seconds, except that a zero stays zero. *)
Theorem Diff_conserves_and_swaps (d other : Daytime) :
  is_uint32 d -> is_uint32 other -> Valid d = true -> Valid other = true ->
  let '(sec, days) := Diff d other in
  let '(sec', days') := Diff other d in
  sec + 86400 * days = int_of d - int_of other
  /\ (sec = 0 -> sec' = 0 /\ days' = - days)
  /\ (sec <> 0 -> sec' = 86400 - sec /\ days' = - days - 1).
Proof.
  intros Hd Ho Hv Hw.
  rewrite (Diff_valid d other Hd Ho Hv Hw), (Diff_valid other d Ho Hd Hw Hv).
  unfold int_of. repeat split; intros;
    Z.to_euclidean_division_equations; lia.
Qed.

Lemma Diff_conserves_and_swaps_witness :
  is_uint32 3600 /\ is_uint32 43200 /\ Valid 3600 = true /\ Valid 43200 = true
  /\ Diff 3600 43200 = (46800, -1) /\ Diff 43200 3600 = (39600, 0)
  /\ 46800 + 86400 * -1 = int_of 3600 - int_of 43200.
Proof.
  assert (Hd : is_uint32 3600) by (unfold is_uint32; lia).
  assert (Ho : is_uint32 43200) by (unfold is_uint32; lia).
  assert (Hv : Valid 3600 = true) by reflexivity.
  assert (Hw : Valid 43200 = true) by reflexivity.
  split; [exact Hd|]. split; [exact Ho|]. split; [exact Hv|].
  split; [exact Hw|]. split; [reflexivity|]. split; [reflexivity|].
  pose proof (Diff_conserves_and_swaps 3600 43200 Hd Ho Hv Hw) as H.
  change (Diff 3600 43200) with (46800, -1) in H.
  change (Diff 43200 3600) with (39600, 0) in H. cbv beta iota in H.
  exact (proj1 H).
Defined.

(** ** Div and Mod *)

Lemma value_of_valid d :
  (if d =? EndOfDay then secondsInDay else int_of d) = d.
Proof.
  rewrite EndOfDay_eq. unfold secondsInDay, int_of.
  destruct (Z.eqb_spec d 86400); congruence.
Qed.

Lemma quot_small x k :
  0 <= x <= 86400 -> is_int k -> k <> 0 -> quot x k = Z.quot x k.
Proof.
  intros Hx Hk Hnz. apply wrap_id.
  unfold is_int, min_int, max_int in *.
  Z.to_euclidean_division_equations. nia.
Qed.

(** X11.  Dividing a valid daytime by a positive divisor succeeds: quotient
    and remainder are those of the floored division of its count of seconds,
    so quotient times divisor plus remainder gives the count back with the
    remainder in [0, divisor); the quotient is a valid daytime and the
    remainder is what [Mod] by the same number returns. *)
Theorem Div_positive_divisor (d : Daytime) (k : int) :
  is_uint32 d -> Valid d = true -> is_int k -> 0 < k ->
  Div d k = (int_of d / k, int_of d mod k, None)
  /\ int_of d / k * k + int_of d mod k = int_of d
  /\ 0 <= int_of d mod k < k
  /\ Valid (int_of d / k) = true
  /\ Mod d k = (snd (fst (Div d k)), None).
Proof.
  intros Hd Hv Hk Hpos. apply Valid_true in Hv as Hle.
  unfold is_uint32, int_of in *.
  assert (HDiv : Div d k = (d / k, d mod k, None)).
  { unfold Div. destruct (Z.eqb_spec k 0); [lia|]. rewrite Hv. cbn [negb].
    rewrite value_of_valid. unfold rem, secondsInDay.
    rewrite (quot_small d k) by (assumption || lia).
    rewrite Z.quot_div_nonneg, Z.rem_mod_nonneg by lia.
    assert (Hq : 0 <= d / k <= 86400)
      by (Z.to_euclidean_division_equations; nia).
    destruct (Z.ltb_spec (d / k) 0), (Z.gtb_spec (d / k) 86400);
      cbn [orb]; try lia.
    unfold of_int. rewrite to_uint32_id; [reflexivity|].
    unfold is_uint32. lia. }
  rewrite HDiv. cbn [fst snd].
  split; [reflexivity|]. split; [Z.to_euclidean_division_equations; nia|].
  split; [apply Z.mod_pos_bound; lia|].
  split; [apply Valid_true; Z.to_euclidean_division_equations; nia|].
  unfold Mod. destruct (Z.leb_spec k 0); [lia|]. rewrite Hv. cbn [negb].
  rewrite value_of_valid. unfold rem.
  rewrite Z.rem_mod_nonneg by lia.
  pose proof (Z.mod_pos_bound d k Hpos) as Hm.
  destruct (Z.ltb_spec (d mod k) 0); [lia|].
  unfold of_int. rewrite to_uint32_id; [reflexivity|].
  unfold is_uint32. assert (d mod k <= d) by (apply Z.mod_le; lia). lia.
Qed.

Lemma Div_positive_divisor_witness :
  is_uint32 43200 /\ Valid 43200 = true /\ is_int 7 /\ 0 < 7
  /\ Div 43200 7 = (6171, 3, None).
Proof.
  assert (Hd : is_uint32 43200) by (unfold is_uint32; lia).
  assert (Hv : Valid 43200 = true) by reflexivity.
  assert (Hk : is_int 7) by (unfold is_int, min_int, max_int; lia).
  assert (Hp : 0 < 7) by lia.
  split; [exact Hd|]. split; [exact Hv|]. split; [exact Hk|].
  split; [exact Hp|].
  exact (proj1 (Div_positive_divisor 43200 7 Hd Hv Hk Hp)).
Defined.

(** X12.  A zero divisor is refused with [ErrDivisionByZero] before the
    receiver is looked at, so for invalid receivers too.  On a valid
    receiver a non-zero divisor is refused exactly when it is negative and
    not larger in magnitude than the count of seconds, with
    [ErrValueOutOfRange]; a quotient above 86400 never occurs.  Every
    failure returns daytime zero and remainder zero. *)
Theorem Div_failures (d : Daytime) (k : int) :
  is_uint32 d -> is_int k ->
  (k = 0 ->
   Div d k = (0, 0, Some (Error "Div" (AnyInt 0) (Sentinel ErrDivisionByZero))))
  /\ (k <> 0 -> Valid d = true ->
      (snd (Div d k) <> None <-> k < 0 /\ - k <= int_of d)
      /\ (snd (Div d k) <> None ->
          Div d k = (0, 0, Some (Error "Div" (AnyInt (Z.quot (int_of d) k))
                                   (Sentinel ErrValueOutOfRange)))))
  /\ (forall e, snd (Div d k) = Some e -> fst (Div d k) = (0, 0)).
Proof.
  intros Hd Hk. unfold is_uint32, int_of in *.
  assert (Hvalid : k <> 0 -> Valid d = true ->
            Div d k =
            if (Z.quot d k <? 0) || (Z.quot d k >? 86400)
            then (0, 0, Some (Error "Div" (AnyInt (Z.quot d k))
                                (Sentinel ErrValueOutOfRange)))
            else (of_int (Z.quot d k), Z.rem d k, None)).
  { intros Hnz Hv. apply Valid_true in Hv as Hle. unfold Div.
    destruct (Z.eqb_spec k 0); [contradiction|]. rewrite Hv. cbn [negb].
    rewrite value_of_valid. unfold rem, secondsInDay.
    rewrite (quot_small d k) by (assumption || lia). reflexivity. }
  split; [|split].
  - intros ->. reflexivity.
  - intros Hnz Hv. rewrite (Hvalid Hnz Hv). apply Valid_true in Hv.
    assert (Hq : Z.quot d k <= 86400)
      by (unfold is_int, min_int, max_int in *;
          Z.to_euclidean_division_equations; nia).
    destruct (Z.ltb_spec (Z.quot d k) 0) as [Hneg | Hnn];
      destruct (Z.gtb_spec (Z.quot d k) 86400) as [Hbig | _];
      cbn [orb snd]; try lia.
    + split; [|reflexivity]. split; [|discriminate]. intros _.
      Z.to_euclidean_division_equations. nia.
    + split; [|intros H; exfalso; apply H; reflexivity].
      split; [intros H; exfalso; apply H; reflexivity|].
      intros [Hlt Hle]. exfalso.
      Z.to_euclidean_division_equations. nia.
  - intros e. unfold Div.
    destruct (Z.eqb_spec k 0); [reflexivity|].
    destruct (Valid d); cbn [negb]; [|discriminate].
    destruct ((quot _ k <? 0) || (quot _ k >? secondsInDay));
      [reflexivity | discriminate].
Qed.

Lemma Div_failures_witness :
  is_uint32 90000 /\ is_int 0
  /\ Div 90000 0
     = (0, 0, Some (Error "Div" (AnyInt 0) (Sentinel ErrDivisionByZero))).
Proof.
  assert (Hd : is_uint32 90000) by (unfold is_uint32; lia).
  assert (Hk : is_int 0) by (unfold is_int, min_int, max_int; lia).
  split; [exact Hd|]. split; [exact Hk|].
  exact (proj1 (Div_failures 90000 0 Hd Hk) eq_refl).
Defined.

(** X13.  [Mod] refuses a modulus that is zero or negative with
    [ErrInvalidModulus] and daytime zero, whatever the receiver; on a valid
    receiver and a positive modulus it returns the floored remainder of the
    count of seconds, which is below the modulus and a valid daytime, and a
    modulus above the count returns the receiver itself. *)
Theorem Mod_characterization (d : Daytime) (m : int) :
  is_uint32 d -> is_int m ->
  (m <= 0 ->
   Mod d m = (0, Some (Error "Mod" (AnyInt m) (Sentinel ErrInvalidModulus))))
  /\ (0 < m -> Valid d = true ->
      Mod d m = (int_of d mod m, None)
      /\ 0 <= int_of d mod m < m
      /\ Valid (fst (Mod d m)) = true
      /\ (int_of d < m -> Mod d m = (d, None))).
Proof.
  intros Hd Hm. unfold is_uint32, int_of in *. split.
  - intros Hle. unfold Mod. destruct (Z.leb_spec m 0); [reflexivity | lia].
  - intros Hpos Hv. apply Valid_true in Hv as Hle.
    assert (HMod : Mod d m = (d mod m, None)).
    { unfold Mod. destruct (Z.leb_spec m 0); [lia|]. rewrite Hv. cbn [negb].
      rewrite value_of_valid. unfold rem.
      rewrite Z.rem_mod_nonneg by lia.
      pose proof (Z.mod_pos_bound d m Hpos).
      destruct (Z.ltb_spec (d mod m) 0); [lia|].
      unfold of_int. rewrite to_uint32_id; [reflexivity|].
      unfold is_uint32. assert (d mod m <= d) by (apply Z.mod_le; lia). lia. }
    rewrite HMod. cbn [fst].
    split; [reflexivity|]. split; [apply Z.mod_pos_bound; lia|].
    split.
    + apply Valid_true. assert (d mod m <= d) by (apply Z.mod_le; lia). lia.
    + intros Hlt. rewrite Z.mod_small by lia. reflexivity.
Qed.

Lemma Mod_characterization_witness :
  is_uint32 86400 /\ is_int 3600 /\ Mod 86400 3600 = (0, None).
Proof.
  assert (Hd : is_uint32 86400) by (unfold is_uint32; lia).
  assert (Hm : is_int 3600) by (unfold is_int, min_int, max_int; lia).
  split; [exact Hd|]. split; [exact Hm|].
  destruct (Mod_characterization 86400 3600 Hd Hm) as [_ H].
  exact (proj1 (H ltac:(lia) eq_refl)).
Defined.

(** ** What Parse returns *)




(** X15.  [Parse] reads the text [String] writes: for a valid [d] the text
    has eight bytes and parses back to [d] with no error, so [String] gives
    distinct texts to distinct valid daytimes. *)
Theorem Parse_String_roundtrip (d : Daytime) :
  is_uint32 d -> Valid d = true ->
  Parse (daytime.String d) = (d, None)
  /\ String.length (daytime.String d) = 8%nat
  /\ (forall d', is_uint32 d' -> Valid d' = true ->
      daytime.String d' = daytime.String d -> d' = d).
Proof.
  assert (Hback : forall x, is_uint32 x -> Valid x = true ->
            Parse (daytime.String x) = (x, None)
            /\ String.length (daytime.String x) = 8%nat).
  { intros x Hx Hv. apply Valid_true in Hv as Hle. unfold is_uint32 in Hx.
    unfold daytime.String. rewrite Hv. cbn [negb]. rewrite EndOfDay_eq.
    destruct (Z.eqb_spec x 86400) as [-> | Hne]; [split; reflexivity|].
    rewrite Clock_in_day by lia.
    assert (Hh : 0 <= x / 3600 <= 24)
      by (Z.to_euclidean_division_equations; lia).
    assert (Hm : 0 <= (x mod 3600) / 60 <= 59)
      by (Z.to_euclidean_division_equations; lia).
    assert (Hs : 0 <= x mod 60 <= 59)
      by (Z.to_euclidean_division_equations; lia).
    split.
    - rewrite Parse_canonical; try assumption.
      + f_equal. Z.to_euclidean_division_equations. lia.
      + Z.to_euclidean_division_equations. lia.
    - apply fmt_hms_length; lia. }
  intros Hd Hv. destruct (Hback d Hd Hv) as [HP HL].
  split; [exact HP|]. split; [exact HL|].
  intros d' Hd' Hv' Heq. destruct (Hback d' Hd' Hv') as [HP' _].
  rewrite Heq, HP in HP'. congruence.
Qed.

Lemma Parse_String_roundtrip_witness :
  is_uint32 86399 /\ Valid 86399 = true
  /\ daytime.String 86399 = "23:59:59"%string
  /\ Parse (daytime.String 86399) = (86399, None).
Proof.
  assert (Hd : is_uint32 86399) by (unfold is_uint32; lia).
  assert (Hv : Valid 86399 = true) by reflexivity.
  split; [exact Hd|]. split; [exact Hv|]. split; [reflexivity|].
  exact (proj1 (Parse_String_roundtrip 86399 Hd Hv)).
Defined.

(** X16.  On components [New] accepts, parsing their zero-padded text
    [HH:MM:SS] gives what [New] gives. *)
Theorem Parse_agrees_with_New (hour minute second : int) :
  clock_ok hour minute second ->
  Parse (fmt_hms hour minute second) = New hour minute second.
Proof.
  intros Hok. rewrite (New_accepts _ _ _ Hok).
  destruct Hok as (Hh & Hm & Hs & H24).
  apply Parse_canonical; assumption.
Qed.

Lemma Parse_agrees_with_New_witness :
  clock_ok 24 0 0
  /\ fmt_hms 24 0 0 = "24:00:00"%string
  /\ Parse (fmt_hms 24 0 0) = New 24 0 0.
Proof.
  assert (Hok : clock_ok 24 0 0) by (unfold clock_ok; lia).
  split; [exact Hok|]. split; [reflexivity|].
  exact (Parse_agrees_with_New 24 0 0 Hok).
Defined.

(** ** Integer texts and clock texts are disjoint *)

Lemma digits_value_all_decimal s acc v :
  strconv.digits_value s acc = Some v -> all_decimal s = true.
Proof.
  revert acc. induction s as [|c rest IH]; intros acc H; [reflexivity|].
  cbn [strconv.digits_value all_decimal] in *.
  destruct (is_decimal c); [|discriminate].
  cbn [andb]. exact (IH _ H).
Qed.

Lemma accept_all_decimal s :
  all_decimal s = true -> fmt.accept_all fmt.is_digit_d s = (s, EmptyString).
Proof.
  induction s as [|c rest IH]; intros H; [reflexivity|].
  cbn [all_decimal fmt.accept_all] in *.
  apply andb_true_iff in H as [Hc Hrest]. unfold fmt.is_digit_d at 1.
  rewrite Hc. cbn [orb]. rewrite (IH Hrest). reflexivity.
Qed.

Lemma SkipSpace_plain c r :
  fmt.is_sign c || is_decimal c = true ->
  fmt.SkipSpace (String.String c r) = inr (tt, String.String c r).
Proof.
  intros H.
  assert (Hc : code c = 43 \/ code c = 45 \/ 48 <= code c <= 57).
  { unfold fmt.is_sign, is_decimal in H.
    destruct (Z.eqb_spec (code c) 43), (Z.eqb_spec (code c) 45),
      (Z.leb_spec 48 (code c)), (Z.leb_spec (code c) 57);
      cbn in H; try discriminate; lia. }
  cbn [fmt.SkipSpace].
  destruct (Z.eqb_spec (code c) 10); [lia|].
  assert (H1 : fmt.space1 (code c) = false).
  { unfold fmt.space1.
    destruct (Z.leb_spec 9 (code c)), (Z.leb_spec (code c) 13),
      (Z.eqb_spec (code c) 32); cbn; try reflexivity; lia. }
  rewrite H1. destruct r as [|c2 r2]; [reflexivity|].
  assert (H2 : fmt.space2 (code c) (code c2) = false).
  { unfold fmt.space2. destruct (Z.eqb_spec (code c) 194); [lia | reflexivity]. }
  rewrite H2. destruct r2 as [|c3 r3]; [reflexivity|].
  assert (H3 : fmt.space3 (code c) (code c2) (code c3) = false).
  { unfold fmt.space3.
    destruct (Z.eqb_spec (code c) 225), (Z.eqb_spec (code c) 226),
      (Z.eqb_spec (code c) 227); try lia; reflexivity. }
  rewrite H3. reflexivity.
Qed.

Lemma scanNumber_digits body un :
  strconv.parse_digits body = Some un ->
  fmt.scanNumber body = inr (body, EmptyString).
Proof.
  destruct body as [|c rest]; [discriminate|].
  unfold strconv.parse_digits. cbn [strconv.digits_value].
  destruct (is_decimal c) eqn:Hc; [|discriminate]. intros H.
  apply digits_value_all_decimal in H.
  unfold fmt.scanNumber, fmt.bind, fmt.notEOF, fmt.accept.
  unfold fmt.is_digit_d at 1. rewrite Hc. cbn [orb].
  rewrite (accept_all_decimal rest H). reflexivity.
Qed.

Lemma scanInt_integer_text s n :
  strconv.ParseInt s = Some n -> fmt.scanInt s = inr (n, EmptyString).
Proof.
  intros HP. pose proof HP as HP0.
  destruct s as [|c rest]; [discriminate|].
  unfold strconv.ParseInt in HP.
  assert (Hcases :
    (fmt.is_sign c = true /\ exists un, strconv.parse_digits rest = Some un)
    \/ (fmt.is_sign c = false /\ is_decimal c = true
        /\ exists un, strconv.parse_digits (String.String c rest) = Some un)).
  { unfold fmt.is_sign.
    destruct (Z.eqb_spec (code c) 43) as [E43 | N43].
    - left. split; [reflexivity|].
      destruct (strconv.parse_digits rest) as [un|]; [eauto | discriminate].
    - destruct (Z.eqb_spec (code c) 45) as [E45 | N45].
      + left. split; [reflexivity|].
        destruct (strconv.parse_digits rest) as [un|]; [eauto | discriminate].
      + right. split; [reflexivity|].
        destruct (strconv.parse_digits (String.String c rest)) as [un|] eqn:E;
          [|discriminate].
        split; [|eauto].
        unfold strconv.parse_digits in E. cbn [strconv.digits_value] in E.
        destruct (is_decimal c); [reflexivity | discriminate]. }
  unfold fmt.scanInt, fmt.bind.
  destruct Hcases as [[Hsign [un Hun]] | [Hsign [Hdec [un Hun]]]].
  - rewrite SkipSpace_plain by (rewrite Hsign; reflexivity).
    unfold fmt.notEOF, fmt.accept. rewrite Hsign.
    rewrite (scanNumber_digits rest un Hun).
    cbn [append]. rewrite HP0. reflexivity.
  - rewrite SkipSpace_plain by (rewrite Hdec; apply orb_true_r).
    unfold fmt.notEOF, fmt.accept. rewrite Hsign.
    rewrite (scanNumber_digits _ un Hun).
    cbn [append]. rewrite HP0. reflexivity.
Qed.

Lemma Sscanf_integer_text s n :
  strconv.Atoi s = Some n ->
  fmt.Sscanf s format_hms = ([n], Some fmt.UnexpectedEOF).
Proof.
  intros H. unfold strconv.Atoi in H.
  pose proof (scanInt_integer_text s n H) as Hscan.
  unfold fmt.Sscanf, format_hms. cbn [fmt.doScanf].
  assert (Hskip : fmt.SkipSpace s = inr (tt, s)).
  { destruct s as [|c rest]; [reflexivity|].
    apply SkipSpace_plain.
    unfold strconv.ParseInt, fmt.is_sign in *.
    destruct (Z.eqb_spec (code c) 43); [reflexivity|].
    destruct (Z.eqb_spec (code c) 45); [reflexivity|].
    cbn [orb]. unfold strconv.parse_digits in H.
    cbn [strconv.digits_value] in H.
    destruct (is_decimal c); [reflexivity | discriminate]. }
  unfold fmt.bind at 1. rewrite Hskip, Hscan. reflexivity.
Qed.

(** X17.  A text that [strconv.Atoi] reads as an integer is never a clock
    text: [parseTimeString] refuses it with [ErrInvalidFormat].  So [Parse]
    returns the integer as seconds when it lies in [0, 86400], and fails
    when it does not, the range error of [parseSeconds] being replaced by
    [ErrInvalidFormat]. *)
Theorem Parse_integer_text (s : string) (n : int) :
  strconv.Atoi s = Some n ->
  cause (snd (parseTimeString s)) = Some ErrInvalidFormat
  /\ (0 <= n <= 86400 -> Parse s = (n, None))
  /\ (n < 0 \/ 86400 < n ->
      cause (snd (parseSeconds s)) = Some ErrValueOutOfRange
      /\ Parse s
         = (0, Some (Error "Parse" (AnyString s) (Sentinel ErrInvalidFormat)))).
Proof.
  intros HA.
  assert (Hne : s <> EmptyString) by (intros ->; discriminate HA).
  assert (HT : parseTimeString s
               = (0, Some (Error "parseTimeString" (AnyString s)
                             (Sentinel ErrInvalidFormat)))).
  { unfold parseTimeString.
    destruct (negb (Z.of_nat (String.length s) =? 8)); [reflexivity|].
    rewrite (Sscanf_integer_text s n HA). reflexivity. }
  split; [rewrite HT; reflexivity|]. split.
  - intros Hn. unfold Parse.
    destruct (String.eqb_spec s EmptyString); [contradiction|].
    unfold parseSeconds, secondsInDay. rewrite HA.
    destruct (Z.ltb_spec n 0), (Z.gtb_spec n 86400); cbn [orb]; try lia.
    unfold of_int. rewrite to_uint32_id; [reflexivity|].
    unfold is_uint32. lia.
  - intros Hn.
    assert (HS : parseSeconds s
                 = (0, Some (Error "parseSeconds" (AnyInt n)
                               (Sentinel ErrValueOutOfRange)))).
    { unfold parseSeconds, secondsInDay. rewrite HA.
      destruct (Z.ltb_spec n 0), (Z.gtb_spec n 86400); cbn [orb];
        try reflexivity; lia. }
    split; [rewrite HS; reflexivity|].
    exact (Parse_after_both_fail s _ _ _ _ Hne HS HT).
Qed.

Lemma Parse_integer_text_witness :
  strconv.Atoi "00086401" = Some 86401
  /\ String.length "00086401" = 8%nat
  /\ Parse "00086401"
     = (0, Some (Error "Parse" (AnyString "00086401")
                   (Sentinel ErrInvalidFormat))).
Proof.
  assert (HA : strconv.Atoi "00086401" = Some 86401) by reflexivity.
  split; [exact HA|]. split; [reflexivity|].
  destruct (Parse_integer_text "00086401" 86401 HA) as (_ & _ & H).
  apply H. lia.
Defined.



(** ** Errors *)

(** X19.  [errorf] keeps nil, leaves a package [Error] as it is, and wraps
    anything else once; in every case the result unwraps to the same
    sentinel and matches the same targets under [errors.Is], and [Is]
    answers true for the root cause only. *)
Theorem errorf_keeps_cause (op : string) (value : any) (e : error) :
  errorf op value None = None
  /\ (exists e', errorf op value (Some e) = Some e'
       /\ root_cause e' = root_cause e
       /\ (forall t, Is e' t = Is e t)
       /\ As_Error e' = true
       /\ (As_Error e = true -> e' = e)
       /\ (As_Error e = false ->
           e' = Error op value e /\ Operation e' = op /\ Unwrap e' = Some e))
  /\ (forall t, Is e t = true <-> root_cause e = t).
Proof.
  split; [reflexivity|]. split.
  - destruct e as [sv | op0 v0 inner].
    + exists (Error op value (Sentinel sv)). cbn.
      repeat split; intros; try reflexivity; try discriminate.
    + exists (Error op0 v0 inner). cbn.
      repeat split; intros; try reflexivity; try discriminate.
  - intros t. induction e as [sv | op0 v0 inner IH]; cbn [Is root_cause].
    + destruct sv, t; cbn; split; intros; congruence.
    + exact IH.
Qed.

(** ** Daytimes taken from a clock reading *)

Lemma fromTime_total (hour minute second : int) :
  0 <= hour <= 23 -> 0 <= minute <= 59 -> 0 <= second <= 59 ->
  fromTime (hour, minute, second) = hour * 3600 + minute * 60 + second
  /\ hour * 3600 + minute * 60 + second < 86400.
Proof.
  intros Hh Hm Hs. split; [|lia].
  unfold fromTime, add32, mul32, to_uint32.
  rewrite (Z.mod_small hour), (Z.mod_small minute), (Z.mod_small second)
    by lia.
  rewrite (Z.mod_small (hour * 3600)), (Z.mod_small (minute * 60)) by lia.
  rewrite (Z.mod_small (hour * 3600 + minute * 60)) by lia.
  apply Z.mod_small. lia.
Qed.

(** X20.  From a clock reading with hour in [0, 23] and minute and second
    in [0, 59], as [time.Time.Clock] gives, [fromTime] is the count of
    seconds, strictly inside the day: never [EndOfDay], never invalid; its
    clock is the reading again and it is the daytime [New] builds. *)
Theorem fromTime_in_day (hour minute second : int) :
  0 <= hour <= 23 -> 0 <= minute <= 59 -> 0 <= second <= 59 ->
  fromTime (hour, minute, second) = hour * 3600 + minute * 60 + second
  /\ IsInDay (fromTime (hour, minute, second)) = true
  /\ IsEndOfDay (fromTime (hour, minute, second)) = false
  /\ Valid (fromTime (hour, minute, second)) = true
  /\ Clock (FromTime (hour, minute, second)) = (hour, minute, second)
  /\ New hour minute second = (fromTime (hour, minute, second), None).
Proof.
  intros Hh Hm Hs.
  assert (Hok : clock_ok hour minute second) by (unfold clock_ok; lia).
  destruct (fromTime_total hour minute second Hh Hm Hs) as [Hf _].
  unfold FromTime. rewrite Hf, (New_accepts _ _ _ Hok).
  unfold IsInDay, IsEndOfDay. rewrite EndOfDay_eq.
  split; [reflexivity|]. split; [apply Z.ltb_lt; lia|].
  split; [apply Z.eqb_neq; lia|]. split; [apply Valid_true; lia|].
  split; [|reflexivity].
  apply Clock_of_components, Hok.
Qed.

Lemma fromTime_in_day_witness :
  0 <= 23 <= 23 /\ 0 <= 59 <= 59 /\ 0 <= 59 <= 59
  /\ fromTime (23, 59, 59) = 23 * 3600 + 59 * 60 + 59.
Proof.
  assert (Hh : 0 <= 23 <= 23) by lia.
  assert (Hm : 0 <= 59 <= 59) by lia.
  split; [exact Hh|]. split; [exact Hm|]. split; [exact Hm|].
  exact (proj1 (fromTime_in_day 23 59 59 Hh Hm Hm)).
Defined.

(** X21.  [Duration] never overflows: for every [uint32] value it is the
    count of seconds times 1e9 nanoseconds, and for a valid daytime it lies
    between zero and 24 hours. *)
Theorem Duration_exact (d : Daytime) :
  is_uint32 d ->
  Duration d = int_of d * 1000000000
  /\ (Valid d = true -> 0 <= Duration d <= 86400 * 1000000000).
Proof.
  intros Hd. unfold is_uint32 in Hd.
  assert (H : Duration d = int_of d * 1000000000).
  { unfold Duration, mul, int_of. apply wrap_id.
    unfold is_int, min_int, max_int. lia. }
  split; [exact H|]. intros Hv. apply Valid_true in Hv.
  rewrite H. unfold int_of. lia.
Qed.

Lemma Duration_exact_witness :
  is_uint32 4294967295 /\ Duration 4294967295 = 4294967295000000000.
Proof.
  assert (Hd : is_uint32 4294967295) by (unfold is_uint32; lia).
  split; [exact Hd|].
  exact (proj1 (Duration_exact 4294967295 Hd)).
Defined.


(** X22.  Against any clock reading [EndOfDay] is after, never before and
    never equal; a daytime inside the day compares with the reading as their
    counts of seconds do. *)
Theorem compare_with_clock_reading (d : Daytime) (hour minute second : int) :
  is_uint32 d ->
  0 <= hour <= 23 -> 0 <= minute <= 59 -> 0 <= second <= 59 ->
  let t := (hour, minute, second) in
  let secs := hour * 3600 + minute * 60 + second in
  AfterTime EndOfDay t = true
  /\ BeforeTime EndOfDay t = false
  /\ EqualTime EndOfDay t = false
  /\ (IsInDay d = true ->
      BeforeTime d t = (int_of d <? secs)
      /\ AfterTime d t = (secs <? int_of d)
      /\ EqualTime d t = (int_of d =? secs)).
Proof.
  intros Hd Hh Hm Hs t secs.
  destruct (fromTime_total hour minute second Hh Hm Hs) as [Hf Hlt].
  unfold AfterTime, BeforeTime, EqualTime, After, Equal, t.
  rewrite Hf. fold secs. unfold Before, IsInDay, int_of.
  rewrite !EndOfDay_eq.
  destruct (Z.eqb_spec secs 86400) as [E | _]; [unfold secs in E; lia|].
  split; [reflexivity|]. split; [reflexivity|].
  split; [apply Z.eqb_neq; unfold secs; lia|].
  intros Hin. apply Z.ltb_lt in Hin.
  destruct (Z.eqb_spec d 86400); [lia|]. repeat split.
Qed.

Lemma compare_with_clock_reading_witness :
  is_uint32 3600 /\ 0 <= 12 <= 23 /\ 0 <= 30 <= 59 /\ 0 <= 15 <= 59
  /\ AfterTime EndOfDay (12, 30, 15) = true.
Proof.
  assert (Hd : is_uint32 3600) by (unfold is_uint32; lia).
  assert (Hh : 0 <= 12 <= 23) by lia.
  assert (Hm : 0 <= 30 <= 59) by lia.
  assert (Hs : 0 <= 15 <= 59) by lia.
  split; [exact Hd|]. split; [exact Hh|]. split; [exact Hm|].
  split; [exact Hs|].
  exact (proj1 (compare_with_clock_reading 3600 12 30 15 Hd Hh Hm Hs)).
Defined.

(** ** Add, Sub and Diff together *)

(** X23.  After [Add] of [s] seconds to a valid daytime, [Diff] of the
    result and the original gives [s] modulo 86400 as seconds, and the days
    [Add] reported plus the days [Diff] reports are the whole days of [s],
    whenever the sum does not overflow. *)
Theorem Add_then_Diff (d : Daytime) (s : int) :
  is_uint32 d -> Valid d = true -> is_int s -> int_of d + s <= max_int ->
  let '(d', k) := Add d s in
  let '(sec, days) := Diff d' d in
  sec = s mod 86400 /\ k + days = s / 86400.
Proof.
  intros Hd Hv Hs Hle. apply Valid_true in Hv as Hv'.
  rewrite (Add_valid d s Hv). unfold int_of in *.
  rewrite add_exact
    by (unfold is_uint32, is_int, min_int, max_int in *; lia).
  pose proof (day_normal_conserves (d + s)) as Hc.
  destruct (day_normal (d + s)) as [d' k]. destruct Hc as [Hb Hsum].
  rewrite (Diff_valid d' d); try assumption.
  - unfold int_of in Hsum. split; Z.to_euclidean_division_equations; lia.
  - unfold is_uint32. lia.
  - apply Valid_true. lia.
Qed.

Lemma Add_then_Diff_witness :
  is_uint32 82800 /\ Valid 82800 = true /\ is_int 180000
  /\ int_of 82800 + 180000 <= max_int
  /\ Add 82800 180000 = (3600, 3)
  /\ Diff 3600 82800 = (7200, -1)
  /\ 7200 = 180000 mod 86400 /\ 3 + -1 = 180000 / 86400.
Proof.
  assert (Hd : is_uint32 82800) by (unfold is_uint32; lia).
  assert (Hv : Valid 82800 = true) by reflexivity.
  assert (Hs : is_int 180000) by (unfold is_int, min_int, max_int; lia).
  assert (Hle : int_of 82800 + 180000 <= max_int)
    by (unfold int_of, max_int; lia).
  split; [exact Hd|]. split; [exact Hv|]. split; [exact Hs|].
  split; [exact Hle|]. split; [reflexivity|]. split; [reflexivity|].
  pose proof (Add_then_Diff 82800 180000 Hd Hv Hs Hle) as H.
  change (Add 82800 180000) with (3600, 3) in H. cbv beta iota in H.
  change (Diff 3600 82800) with (7200, -1) in H. cbv beta iota in H.
  exact H.
Defined.

(** X24.  [Sub] moves backward: for a valid daytime and [s] other than the
    smallest [int], the daytime returned plus 86400 times the days crossed
    is [int(d) - s], when that difference does not overflow; for the
    smallest [int], whose opposite does not exist, [Sub] is [Add]. *)
Theorem Sub_conserves_seconds (d : Daytime) (s : int) :
  is_uint32 d -> Valid d = true -> is_int s ->
  (min_int < s -> int_of d - s <= max_int ->
   let '(d', k) := Sub d s in
   Valid d' = true /\ int_of d' + 86400 * k = int_of d - s)
  /\ (s = min_int -> Sub d s = Add d s).
Proof.
  intros Hd Hv Hs. split.
  - intros Hlo Hhi. unfold Sub. rewrite (neg_exact s Hlo Hs).
    assert (Hs' : is_int (- s))
      by (unfold is_int, min_int, max_int in *; lia).
    rewrite (Add_valid d (- s) Hv).
    pose proof (day_normal_conserves (add (int_of d) (- s))) as H.
    destruct (day_normal (add (int_of d) (- s))) as [d' k].
    destruct H as [Hb Hsum]. split; [apply Valid_true; lia|].
    rewrite Hsum. apply Valid_true in Hv.
    rewrite add_exact; [lia|].
    unfold is_uint32, is_int, min_int, max_int, int_of in *. lia.
  - intros ->. reflexivity.
Qed.

Lemma Sub_conserves_seconds_witness :
  is_uint32 3600 /\ Valid 3600 = true /\ is_int 7200
  /\ Sub 3600 7200 = (82800, -1)
  /\ int_of 82800 + 86400 * -1 = int_of 3600 - 7200.
Proof.
  assert (Hd : is_uint32 3600) by (unfold is_uint32; lia).
  assert (Hv : Valid 3600 = true) by reflexivity.
  assert (Hs : is_int 7200) by (unfold is_int, min_int, max_int; lia).
  split; [exact Hd|]. split; [exact Hv|]. split; [exact Hs|].
  split; [reflexivity|].
  destruct (Sub_conserves_seconds 3600 7200 Hd Hv Hs) as [H _].
  assert (Hlo : min_int < 7200) by (unfold min_int; lia).
  assert (Hhi : int_of 3600 - 7200 <= max_int) by (unfold int_of, max_int; lia).
  specialize (H Hlo Hhi).
  change (Sub 3600 7200) with (82800, -1) in H. cbv beta iota in H.
  exact (proj2 H).
Defined.
